(** * WhatsApp Checkout API: a shallow embedding of [elements.py] and
    [checkout_base.py] and the properties of the order builder and of the
    webhook verifier and classifier. *)

From Stdlib Require Import ZArith List String Ascii Bool Lia.
Import ListNotations.
Open Scope Z_scope.
Open Scope string_scope.
Open Scope list_scope.

(** ** Python exceptions and the error monad *)

Inductive exc :=
| ValueError
| KeyError
| IndexError
| TypeError
| AttributeError
| JSONDecodeError
| RequestException (* raised by [requests.post] or [requests.get], e.g. on a connection error *)
| Exception_ (* a bare [Exception(...)] raised by [_load_phone_numbers] *).

Definition res (A : Type) : Type := (exc + A)%type.

Definition rret {A} (x : A) : res A := inr x.
Definition rbind {A B} (m : res A) (k : A -> res B) : res B :=
  match m with inl e => inl e | inr x => k x end.

Notation "x <-? m ;; k" := (rbind m (fun x => k))
  (at level 61, m at next level, right associativity).

(** ** [elements.py] *)

Definition VALUE_OFFSET : Z := 100.

(** An [Amount] object: its two attributes. *)
Record Amount := mkAmount { value : Z; offset : Z }.

(** [Amount.__init__]: Python's [%] is the floored modulo, as [Z.modulo]. *)
Definition Amount_init (value offset : Z) : res Amount :=
  if negb (Z.eqb offset VALUE_OFFSET) then inl ValueError
  else if negb (Z.eqb (value mod VALUE_OFFSET) 0) then inl ValueError
  else inr (mkAmount value offset).

(** [Amount.toJSON]: the dumped object [{"value": .., "offset": ..}]. *)
Record amount_json := mkAmountJson { aj_value : Z; aj_offset : Z }.

Definition Amount_toJSON (a : Amount) : amount_json :=
  mkAmountJson (value a) (offset a).

Record Header := mkHeader {
  h_type : string;
  h_text : option string;
  h_image_link : option string }.

Record Address := mkAddress {
  address_line1 : string;
  city : string;
  zone_code : string;
  postal_code : string;
  country_code : string;
  address_line2 : option string }.

Record Item := mkItem {
  name : string;
  amount : Amount;
  quantity : Z;
  sale_amount : option Amount;
  retailer_id : option string;
  image_link : option string;
  country_of_origin : option string;
  importer_name : option string;
  importer_address : option Address }.

(** Python truthiness of an optional string: [None] and [""] are false. *)
Definition str_truthy (o : option string) : bool :=
  match o with Some s => negb (String.eqb s "") | None => false end.

(** ** HMAC-SHA256 (the [hmac] and [hashlib] library calls) *)

Module Sha256.

Definition mask32 (x : Z) : Z := Z.land x (Z.ones 32).
Definition add32 (x y : Z) : Z := mask32 (x + y).
Definition rotr (x : Z) (n : Z) : Z :=
  Z.lor (Z.shiftr x n) (mask32 (Z.shiftl x (32 - n))).
Definition notz (x : Z) : Z := Z.lxor x (Z.ones 32).

Definition ch (x y z : Z) : Z := Z.lxor (Z.land x y) (Z.land (notz x) z).
Definition maj (x y z : Z) : Z :=
  Z.lxor (Z.lxor (Z.land x y) (Z.land x z)) (Z.land y z).
Definition bsig0 (x : Z) : Z := Z.lxor (Z.lxor (rotr x 2) (rotr x 13)) (rotr x 22).
Definition bsig1 (x : Z) : Z := Z.lxor (Z.lxor (rotr x 6) (rotr x 11)) (rotr x 25).
Definition ssig0 (x : Z) : Z := Z.lxor (Z.lxor (rotr x 7) (rotr x 18)) (Z.shiftr x 3).
Definition ssig1 (x : Z) : Z := Z.lxor (Z.lxor (rotr x 17) (rotr x 19)) (Z.shiftr x 10).

(** The round constants and the initial hash value, derived as FIPS 180-4
    defines them: the first 32 bits of the fractional parts of the cube
    roots of the first 64 primes, and of the square roots of the first 8. *)
Definition is_prime (p : Z) : bool :=
  Z.leb 2 p &&
  forallb (fun d => negb (Z.eqb (p mod d) 0))
    (map Z.of_nat (seq 2 (Z.to_nat (Z.sqrt p) - 1))).

Definition first_primes (n : nat) : list Z :=
  firstn n (filter is_prime (map Z.of_nat (seq 2 400))).

(** Floor of the cube root by bisection, keeping lo^3 <= n < hi^3. *)
Fixpoint cbrt_search (fuel : nat) (n lo hi : Z) : Z :=
  match fuel with
  | O => lo
  | S f =>
      if Z.leb (hi - lo) 1 then lo
      else let mid := (lo + hi) / 2 in
           if Z.leb (mid * mid * mid) n then cbrt_search f n mid hi
           else cbrt_search f n lo mid
  end.

Definition icbrt (n : Z) : Z := cbrt_search 160 n 0 (n + 1).

Definition K : list Z :=
  map (fun p => icbrt (p * 2 ^ 96) mod 2 ^ 32) (first_primes 64).

Definition H0 : list Z :=
  map (fun p => Z.sqrt (p * 2 ^ 64) mod 2 ^ 32) (first_primes 8).

(** Big-endian packing of bytes into words and back. *)
Fixpoint words_of_bytes (bs : list Z) : list Z :=
  match bs with
  | b0 :: b1 :: b2 :: b3 :: rest =>
      (b0 * 16777216 + b1 * 65536 + b2 * 256 + b3) :: words_of_bytes rest
  | _ => []
  end.

Definition bytes_of_word (w : Z) : list Z :=
  [Z.shiftr w 24 mod 256; Z.shiftr w 16 mod 256; Z.shiftr w 8 mod 256; w mod 256].

(** Message schedule: extend the 16 block words to 64 (kept in reverse). *)
Fixpoint schedule (n : nat) (rw : list Z) : list Z :=
  match n with
  | O => rw
  | S n' =>
      let w2 := nth 1 rw 0 in let w7 := nth 6 rw 0 in
      let w15 := nth 14 rw 0 in let w16 := nth 15 rw 0 in
      schedule n' (add32 (add32 (ssig1 w2) w7) (add32 (ssig0 w15) w16) :: rw)
  end.

Definition round (st : list Z) (kw : Z * Z) : list Z :=
  match st with
  | [a; b; c; d; e; f; g; h] =>
      let t1 := add32 (add32 (add32 h (bsig1 e)) (add32 (ch e f g) (fst kw))) (snd kw) in
      let t2 := add32 (bsig0 a) (maj a b c) in
      [add32 t1 t2; a; b; c; add32 d t1; e; f; g]
  | _ => st
  end.

Definition compress (hs : list Z) (block : list Z) : list Z :=
  let ws := rev (schedule 48 (rev (words_of_bytes block))) in
  let st := fold_left round (combine K ws) hs in
  map (fun p => add32 (fst p) (snd p)) (combine hs st).

Fixpoint chunks (fuel : nat) (bs : list Z) : list (list Z) :=
  match fuel with
  | O => []
  | S f => match bs with [] => [] | _ => firstn 64 bs :: chunks f (skipn 64 bs) end
  end.

Definition pad (msg : list Z) : list Z :=
  let len := Z.of_nat (List.length msg) in
  let zeros := Z.to_nat ((55 - len) mod 64) in
  msg ++ [0x80] ++ repeat 0 zeros
      ++ flat_map (fun i => [Z.shiftr (len * 8) (8 * (7 - Z.of_nat i)) mod 256]) (seq 0 8).

Definition sha256 (msg : list Z) : list Z :=
  let p := pad msg in
  flat_map bytes_of_word (fold_left compress (chunks (List.length p) p) H0).

Definition hmac_sha256 (key msg : list Z) : list Z :=
  let k := if Nat.ltb 64 (List.length key) then sha256 key else key in
  let k := k ++ repeat 0 (64 - List.length k) in
  let ipad := map (Z.lxor 0x36) k in
  let opad := map (Z.lxor 0x5c) k in
  sha256 (opad ++ sha256 (ipad ++ msg)).

End Sha256.

(** ** Python strings *)

(** A [str] is modelled as a string of code points below 256.
    [str.encode("utf-8")] encodes each of them in one or two bytes. *)
Definition utf8_encode (s : string) : list Z :=
  flat_map (fun c => let n := Z.of_nat (nat_of_ascii c) in
                     if Z.ltb n 128 then [n] else [192 + n / 64; 128 + n mod 64])
           (list_ascii_of_string s).

Definition hex_digit (n : Z) : ascii :=
  ascii_of_nat (Z.to_nat (if Z.ltb n 10 then 48 + n else 87 + n)).

(** [HMAC.hexdigest()]: two lowercase hex digits per byte. *)
Definition hexdigest (bs : list Z) : string :=
  string_of_list_ascii (flat_map (fun b => [hex_digit (b / 16); hex_digit (b mod 16)]) bs).

(** [str.removeprefix]. *)
Definition removeprefix (s p : string) : string :=
  if String.prefix p s then substring (String.length p) (String.length s) s else s.

Definition is_ascii (s : string) : bool :=
  forallb (fun c => Nat.ltb (nat_of_ascii c) 128) (list_ascii_of_string s).

(** [hmac.compare_digest] on two [str]: a [TypeError] when either holds a
    non-ASCII character, otherwise equality. *)
Definition compare_digest (a b : string) : res bool :=
  if is_ascii a && is_ascii b then inr (String.eqb a b) else inl TypeError.

(** A [Dict[str, V]] as an insertion-ordered association list. *)
Fixpoint dict_get {V} (d : list (string * V)) (k : string) : option V :=
  match d with
  | [] => None
  | (k', v) :: d' => if String.eqb k' k then Some v else dict_get d' k
  end.

(** [d[k] = v]: an existing key keeps its position, a new one goes last. *)
Fixpoint dict_set {V} (d : list (string * V)) (k : string) (v : V) : list (string * V) :=
  match d with
  | [] => [(k, v)]
  | (k', v') :: d' => if String.eqb k' k then (k, v) :: d' else (k', v') :: dict_set d' k v
  end.

(** ** The abstract methods of [CheckoutBase] *)
Record CheckoutConfig := mkConfig {
  get_access_token : string;
  get_app_secret : string;
  get_waba : string;
  get_payment_configuration : string }.

(** [CheckoutBase.verify_webhook]. *)
Definition verify_webhook (cfg : CheckoutConfig) (headers : list (string * string))
    (payload : string) : res bool :=
  match dict_get headers "X-Hub-Signature-256" with
  | None => inl KeyError
  | Some h =>
      let hmac_in_header := removeprefix h "sha256=" in
      let hmac_calculated :=
        hexdigest (Sha256.hmac_sha256 (utf8_encode (get_app_secret cfg)) (utf8_encode payload)) in
      compare_digest hmac_in_header hmac_calculated
  end.

Example hmac_test_vector :
  hexdigest (Sha256.hmac_sha256 (utf8_encode "key")
     (utf8_encode "The quick brown fox jumps over the lazy dog"))
  = "f7bc83f430538424b13298e6aa6fb143ef4d59a14946175997479dbc2d1a3cd8".
Proof. vm_compute. reflexivity. Qed.

(** ** The order details payload *)

Inductive header_json :=
| HdText (text : string)          (* {"type": "text", "text": ..} *)
| HdImage (link : string).        (* {"type": "image", "image": {"link": ..}} *)

Record item_json := mkItemJson {
  ij_name : string;
  ij_amount : amount_json;
  ij_quantity : Z;
  ij_retailer_id : option string;
  ij_image : option string;
  ij_sale_amount : option amount_json;
  ij_country_of_origin : option string;
  ij_importer_name : option string;
  ij_importer_address : option Address }.

(** The [tax], [shipping] and [discount] blocks, each [json.dumps]-ed in
    the source; [c_program] is [discount_program_name]. *)
Record charge_json := mkChargeJson {
  c_value : Z;
  c_offset : Z;
  c_description : option string;
  c_program : option string }.

Record order_json := mkOrderJson {
  o_status : string;
  o_catalog_id : option string;
  o_expiration : option (string * option string);
  o_items : list item_json;
  o_subtotal : amount_json;
  o_tax : option charge_json;
  o_shipping : option charge_json;
  o_discount : option charge_json }.

Record interactive_json := mkInteractive {
  i_type : string;
  i_body_text : string;
  i_header : option header_json;
  i_footer : option string;
  i_action_name : string;
  i_reference_id : string;
  i_goods_type : string;
  i_payment_type : string;
  i_payment_configuration : string;
  i_currency : string;
  i_order : order_json;
  i_total_amount : amount_json }.

Record request_json := mkRequest {
  r_to : string;
  r_interactive : interactive_json }.

(** The arguments of [send_order_details_msg]. *)
Record OrderDetailsArgs := mkArgs {
  goods_type : string;
  sender_phone_number : string;
  recipient_phone_number : string;
  reference_id : string;
  msg_body : string;
  items : list Item;
  tax_amount : option Amount;
  tax_desc : option string;
  shipping_amount : option Amount;
  shipping_desc : option string;
  discount_amount : option Amount;
  discount_desc : option string;
  discount_program_name : option string;
  catalog_id : option string;
  msg_header : option Header;
  msg_footer : option string;
  expiration_in_sec : option string;
  expiration_desc : option string }.

Definition opt_if (o : option string) : option string :=
  if str_truthy o then o else None.

(** Lines 129-139: a [Header] dataclass instance is always truthy. *)
Definition header_to_json (h : option Header) : res (option header_json) :=
  match h with
  | None => inr None
  | Some hd =>
      if String.eqb (h_type hd) "text" && str_truthy (h_text hd) then
        inr (Some (HdText (match h_text hd with Some t => t | None => "" end)))
      else if String.eqb (h_type hd) "image" && str_truthy (h_image_link hd) then
        inr (Some (HdImage (match h_image_link hd with Some l => l | None => "" end)))
      else inl ValueError
  end.

(** The effective amount of an item: an [Amount] is always truthy. *)
Definition effective_amount (it : Item) : Amount :=
  match sale_amount it with Some s => s | None => amount it end.

Definition item_to_json (it : Item) : item_json :=
  mkItemJson (name it) (Amount_toJSON (amount it)) (quantity it)
    (opt_if (retailer_id it)) (opt_if (image_link it))
    (option_map Amount_toJSON (sale_amount it))
    (opt_if (country_of_origin it)) (opt_if (importer_name it)) (importer_address it).

(** Lines 155-181: the loop over the items, threading [total]. *)
(** [order_offset] is the source's local [offset]. *)
Fixpoint items_loop (order_offset total : Z) (its : list Item) : res (list item_json * Z) :=
  match its with
  | [] => inr ([], total)
  | it :: rest =>
      let am := effective_amount it in
      if negb (Z.eqb order_offset (offset am)) then inl ValueError
      else
        p <-? items_loop order_offset (total + value am * quantity it) rest ;;
        inr (item_to_json it :: fst p, snd p)
  end.

Definition charge (v order_offset : Z) (desc program : option string) : charge_json :=
  mkChargeJson v order_offset (opt_if desc) (opt_if program).

(** Lines 110-222 of [send_order_details_msg]: the [interactive] payload.
    This part performs no I/O; [get_payment_configuration] is a field of the
    configuration. *)
Definition build_interactive (cfg : CheckoutConfig) (a : OrderDetailsArgs)
    : res interactive_json :=
  hd <-? header_to_json (msg_header a) ;;
  match items a with
  | [] => inl IndexError                                  (* items[0] *)
  | first :: _ =>
      let order_offset := offset (amount first) in
      p <-? items_loop order_offset 0 (items a) ;;
      let subtotal := snd p in
      let total := subtotal in
      let total := match tax_amount a with Some t => total + value t | None => total end in
      let total := match shipping_amount a with Some s => total + value s | None => total end in
      let total := match discount_amount a with Some d => total - value d | None => total end in
      total_amount <-? Amount_init total order_offset ;;
      inr (mkInteractive "order_details" (msg_body a) hd (opt_if (msg_footer a))
             "review_and_pay" (reference_id a) (goods_type a) "upi"
             (get_payment_configuration cfg) "INR"
             (mkOrderJson "pending" (opt_if (catalog_id a))
                (if str_truthy (expiration_in_sec a)
                 then Some (match expiration_in_sec a with Some t => t | None => "" end,
                            opt_if (expiration_desc a))
                 else None)
                (fst p) (mkAmountJson subtotal order_offset)
                (option_map (fun t => charge (value t) order_offset (tax_desc a) None)
                   (tax_amount a))
                (option_map (fun s => charge (value s) order_offset (shipping_desc a) None)
                   (shipping_amount a))
                (option_map (fun d => charge (value d) order_offset (discount_desc a)
                                         (discount_program_name a))
                   (discount_amount a)))
             (Amount_toJSON total_amount))
  end.

(** ** Parsed JSON values, as [json.loads] returns them *)

#[local] Set Warnings "-register-all".

(** [JNull] is Python's [None]; an object's keys are distinct. *)
Inductive json :=
| JNull
| JBool (b : bool)
| JNum (n : Z)
| JString (s : string)
| JArray (l : list json)
| JObject (kvs : list (string * json)).

(** Python truthiness. *)
Definition truthy (v : json) : bool :=
  match v with
  | JNull => false
  | JBool b => b
  | JNum n => negb (Z.eqb n 0)
  | JString s => negb (String.eqb s "")
  | JArray l => match l with [] => false | _ => true end
  | JObject kvs => match kvs with [] => false | _ => true end
  end.

(** [v == "s"]: only a [str] equals a [str]. *)
Definition is_str (v : json) (s : string) : bool :=
  match v with JString s' => String.eqb s' s | _ => false end.

(** A subscript [v[k]] or [v[0]]. *)
Inductive sel := K (k : string) | I0.

Definition subscript (v : json) (s : sel) : res json :=
  match s, v with
  | K k, JObject kvs => match dict_get kvs k with Some x => inr x | None => inl KeyError end
  | K _, _ => inl TypeError
  | I0, JArray (x :: _) => inr x
  | I0, JArray [] => inl IndexError
  | I0, JObject _ => inl KeyError
  | I0, JString (String c _) => inr (JString (String c EmptyString))
  | I0, JString EmptyString => inl IndexError
  | I0, _ => inl TypeError
  end.

(** A chain of subscripts [v[s1][s2]...]. *)
Fixpoint path (v : json) (ss : list sel) : res json :=
  match ss with
  | [] => inr v
  | s :: ss' => x <-? subscript v s ;; path x ss'
  end.

(** [v.get(k)]: only a [dict] has [get]. *)
Definition py_get (v : json) (k : string) : res json :=
  match v with
  | JObject kvs => inr (match dict_get kvs k with Some x => x | None => JNull end)
  | _ => inl AttributeError
  end.

(** ** The outside world: the phone directory cache and the HTTP calls *)

Inductive event :=
| EvGetPhoneNumbers (waba : string)                    (* GET {waba}/phone_numbers *)
| EvPostMessage (phone_number_id : string) (req : request_json)
| EvGetPaymentStatus (phone_number_id payment_configuration : string) (reference_id : json).

Record World := mkWorld {
  (** [CheckoutBase._phone_number_to_id_map], shared by every instance *)
  phone_map : list (string * string);
  (** the answer of the phone-numbers endpoint: [None] for a non-200
      status, else the [(display_phone_number, id)] entries of ["data"] *)
  phone_numbers_api : option (list (string * string));
  (** the HTTP requests issued so far, the most recent first *)
  trace : list event;
  (** how the server answers a request, given the requests issued before
      it: [inr tt] when [requests.post] or [requests.get] returns and
      [response.json()] parses the answer, else the exception raised *)
  http_answer : list event -> event -> res unit }.

Definition M (A : Type) : Type := World -> res A * World.

Definition mret {A} (x : A) : M A := fun w => (inr x, w).
Definition mbind {A B} (m : M A) (k : A -> M B) : M B :=
  fun w => match m w with (inl e, w') => (inl e, w') | (inr x, w') => k x w' end.
Definition lift {A} (r : res A) : M A := fun w => (r, w).
Definition emit (ev : event) : M unit :=
  fun w => (inr tt, mkWorld (phone_map w) (phone_numbers_api w) (ev :: trace w) (http_answer w)).
Definition set_phone_map (m : list (string * string)) : M unit :=
  fun w => (inr tt, mkWorld m (phone_numbers_api w) (trace w) (http_answer w)).

(** A request whose response is parsed: [response = requests.post(...)] (or
    [get]) followed by [print(... response.json())]. The request is issued
    in any case; the call then raises when the server's answer says so. *)
Definition request (ev : event) : M unit :=
  fun w => (http_answer w (trace w) ev,
            mkWorld (phone_map w) (phone_numbers_api w) (ev :: trace w) (http_answer w)).

Notation "x <- m ;; k" := (mbind m (fun x => k))
  (at level 61, m at next level, right associativity).

(** [c in "0123456789"]: the digits of a display number. *)
Definition normalize_phone (s : string) : string :=
  string_of_list_ascii
    (filter (fun c => andb (Nat.leb 48 (nat_of_ascii c)) (Nat.leb (nat_of_ascii c) 57))
            (list_ascii_of_string s)).

Definition _load_phone_numbers (cfg : CheckoutConfig) : M unit :=
  _ <- emit (EvGetPhoneNumbers (get_waba cfg)) ;;
  fun w =>
    match phone_numbers_api w with
    | None => (inl Exception_, w)
    | Some [] => (inl Exception_, w)
    | Some data =>
        set_phone_map
          (fold_left (fun m d => dict_set m (normalize_phone (fst d)) (snd d))
                     data (phone_map w)) w
    end.

Definition _get_sender_phone_number_id (cfg : CheckoutConfig) (phone_number : string)
    : M string :=
  let lookup : M string := fun w =>
    match dict_get (phone_map w) phone_number with
    | Some id => (inr id, w)
    | None => (inl KeyError, w)
    end in
  fun w =>
    match phone_map w with
    | [] => (_ <- _load_phone_numbers cfg ;; lookup) w
    | _ => lookup w
    end.

(** [CheckoutBase.send_order_details_msg]; [_get_headers] only reads the
    access token. The post and the parse of its response (lines 234-237)
    are a [request]. *)
Definition send_order_details_msg (cfg : CheckoutConfig) (a : OrderDetailsArgs) : M unit :=
  phone_number_id <- _get_sender_phone_number_id cfg (sender_phone_number a) ;;
  interactive <- lift (build_interactive cfg a) ;;
  request (EvPostMessage phone_number_id (mkRequest (recipient_phone_number a) interactive)).

(** [CheckoutBase.get_payment_status]: the get and the parse of its
    response (lines 292-296) are a [request]. *)
Definition get_payment_status (cfg : CheckoutConfig) (business_phone_number : string)
    (reference_id : json) : M unit :=
  phone_number_id <- _get_sender_phone_number_id cfg business_phone_number ;;
  request (EvGetPaymentStatus phone_number_id (get_payment_configuration cfg) reference_id).

(** [list(CheckoutBase._phone_number_to_id_map.keys())[0]]. *)
Definition first_directory_key : M string :=
  fun w => match phone_map w with
           | (k, _) :: _ => (inr k, w)
           | [] => (inl IndexError, w)
           end.

(** What [handle_webhook_call] reports (its prints) before returning. *)
Inductive outcome :=
| NotVerified
| NotBusinessAccount
| OtherAccount
| NotMessages
| PaymentConfirmation (transaction_id reference_id status display_phone_number : json)
| PaymentStatusUpdate (id reference_id status display_phone_number : json)
| Unrecognized (payload : string).

Section Webhook.

(** [json.loads]: [None] when it raises. *)
Variable json_loads : string -> option json.

Definition in_statuses (v : json) : bool :=
  existsb (is_str v) ["pending"; "failed"; "success"; "canceled"].

(** [CheckoutBase.handle_webhook_call]. [status] is rebound at line 335, so
    the two [get] calls after it are made on the status field; below it is
    [status'] from there on. *)
Definition handle_webhook_call (cfg : CheckoutConfig) (headers : list (string * string))
    (payload : string) : M outcome :=
  verified <- lift (verify_webhook cfg headers payload) ;;
  if negb verified then mret NotVerified else
  data <- lift (match json_loads payload with Some d => inr d | None => inl JSONDecodeError end) ;;
  object <- lift (path data [K "object"]) ;;
  if negb (is_str object "whatsapp_business_account") then mret NotBusinessAccount else
  entry <- lift (path data [K "entry"; I0]) ;;
  entry_id <- lift (path entry [K "id"]) ;;
  if negb (is_str entry_id (get_waba cfg)) then mret OtherAccount else
  change <- lift (path entry [K "changes"; I0]) ;;
  field <- lift (path change [K "field"]) ;;
  if negb (is_str field "messages") then mret NotMessages else
  value <- lift (path change [K "value"]) ;;
  interactive <- lift (m <-? path value [K "messages"; I0] ;; py_get m "interactive") ;;
  is_payment <- lift (if truthy interactive
                      then t <-? path interactive [K "type"] ;; inr (is_str t "payment")
                      else inr false) ;;
  if is_payment then
    lift (payment <-? path interactive [K "payment"] ;;
          tx <-? path payment [K "transaction_id"] ;;
          ref <-? path payment [K "reference_id"] ;;
          st <-? path payment [K "status"] ;;
          disp <-? path value [K "metadata"; K "display_phone_number"] ;;
          inr (PaymentConfirmation tx ref st disp))
  else
  status <- lift (path value [K "statuses"; I0]) ;;
  id <- lift (py_get status "id") ;;
  recipient_id <- lift (py_get status "recipient_id") ;;
  status_type <- lift (py_get status "type") ;;
  status' <- lift (py_get status "status") ;;
  payment <- lift (py_get status' "payment") ;;
  timestamp <- lift (py_get status' "timestamp") ;;
  cond <- lift (if truthy recipient_id && is_str status_type "payment"
                   && in_statuses status' && truthy timestamp && truthy payment
                then r <-? path payment [K "reference_id"] ;; inr (truthy r)
                else inr false) ;;
  if cond then
    ref <- lift (path payment [K "reference_id"]) ;;
    disp <- lift (path value [K "metadata"; K "display_phone_number"]) ;;
    sender <- first_directory_key ;;
    _ <- get_payment_status cfg sender ref ;;
    mret (PaymentStatusUpdate id ref status' disp)
  else mret (Unrecognized payload).

End Webhook.

(** ** Reading the payload *)

Definition opt_value (o : option Amount) : Z :=
  match o with Some x => value x | None => 0 end.

(** [Σ effective_amount.value × quantity] over the items. *)
Definition sum_effective (its : list Item) : Z :=
  fold_right (fun it s => value (effective_amount it) * quantity it + s) 0 its.

(** The scale of an order: that of the first item's [amount]. *)
Definition order_offset_of (a : OrderDetailsArgs) : Z :=
  match items a with it :: _ => offset (amount it) | [] => 0 end.

(** The request of the most recent HTTP call, when it is a message post. *)
Definition last_post (w : World) : option request_json :=
  match trace w with EvPostMessage _ req :: _ => Some req | _ => None end.

(** An [Amount] that went through [Amount.__init__]. *)
Definition built_amount (x : Amount) : Prop := exists v o, Amount_init v o = inr x.

Definition opt_built (o : option Amount) : Prop :=
  match o with Some x => built_amount x | None => True end.

(** ** Lemmas about the builder *)

Lemma Amount_init_inr v o x :
  Amount_init v o = inr x -> x = mkAmount v o /\ o = VALUE_OFFSET /\ v mod VALUE_OFFSET = 0.
Proof.
  unfold Amount_init.
  destruct (Z.eqb_spec o VALUE_OFFSET); [|discriminate].
  destruct (Z.eqb_spec (v mod VALUE_OFFSET) 0); [|discriminate].
  simpl. intros H; inversion H; auto.
Qed.

Lemma items_loop_spec off t its p :
  items_loop off t its = inr p ->
  snd p = t + sum_effective its /\
  Forall (fun it => offset (effective_amount it) = off) its.
Proof.
  revert t p; induction its as [|it rest IH]; intros t p H; simpl in H.
  - inversion H; subst; simpl; split; [lia | constructor].
  - destruct (Z.eqb_spec off (offset (effective_amount it))) as [Eo|]; [|discriminate].
    simpl in H. destruct (items_loop off _ rest) as [e|q] eqn:E; [discriminate|].
    simpl in H. inversion H; subst; clear H. simpl.
    destruct (IH _ _ E) as [Hs Hf]. split.
    + rewrite Hs. lia.
    + constructor; auto.
Qed.

Lemma send_success_inv cfg a w w' :
  send_order_details_msg cfg a w = (inr tt, w') ->
  exists i, build_interactive cfg a = inr i /\
            last_post w' = Some (mkRequest (recipient_phone_number a) i).
Proof.
  unfold send_order_details_msg, mbind, lift, request.
  destruct (_get_sender_phone_number_id cfg (sender_phone_number a) w) as [[e|pid] w1];
    [discriminate|].
  destruct (build_interactive cfg a) as [e|i]; [discriminate|].
  intros H; inversion H; subst. exists i; split; reflexivity.
Qed.

Lemma build_interactive_inv cfg a i :
  build_interactive cfg a = inr i ->
  exists first rest p,
    items a = first :: rest /\
    items_loop (offset (amount first)) 0 (items a) = inr p /\
    i_order i = mkOrderJson "pending" (opt_if (catalog_id a))
                (if str_truthy (expiration_in_sec a)
                 then Some (match expiration_in_sec a with Some t => t | None => "" end,
                            opt_if (expiration_desc a))
                 else None)
                (fst p) (mkAmountJson (snd p) (offset (amount first)))
                (option_map (fun t => charge (value t) (offset (amount first)) (tax_desc a) None)
                   (tax_amount a))
                (option_map (fun s => charge (value s) (offset (amount first)) (shipping_desc a) None)
                   (shipping_amount a))
                (option_map (fun d => charge (value d) (offset (amount first)) (discount_desc a)
                                         (discount_program_name a))
                   (discount_amount a)) /\
    i_total_amount i =
      mkAmountJson (snd p + opt_value (tax_amount a) + opt_value (shipping_amount a)
                    - opt_value (discount_amount a)) (offset (amount first)).
Proof.
  unfold build_interactive.
  destruct (header_to_json (msg_header a)) as [e|hd]; [discriminate|]. simpl.
  destruct (items a) as [|first rest] eqn:Ei; [discriminate|].
  destruct (items_loop _ 0 (first :: rest)) as [e|p] eqn:El; [discriminate|]. simpl.
  match goal with |- context [Amount_init ?v ?o] => destruct (Amount_init v o) as [e|ta] eqn:Ea end;
    [discriminate|].
  simpl. intros H; inversion H; subst; clear H.
  apply Amount_init_inr in Ea. destruct Ea as [-> _].
  exists first, rest, p. repeat split; auto. simpl.
  destruct (tax_amount a), (shipping_amount a), (discount_amount a);
    unfold Amount_toJSON; simpl; f_equal; lia.
Qed.

Lemma build_interactive_total_amount cfg a i :
  build_interactive cfg a = inr i ->
  aj_offset (i_total_amount i) = VALUE_OFFSET /\ aj_value (i_total_amount i) mod VALUE_OFFSET = 0.
Proof.
  unfold build_interactive.
  destruct (header_to_json (msg_header a)) as [e|hd]; [discriminate|]. simpl.
  destruct (items a) as [|first rest]; [discriminate|].
  destruct (items_loop _ 0 (first :: rest)) as [e|p]; [discriminate|]. simpl.
  match goal with |- context [Amount_init ?v ?o] => destruct (Amount_init v o) as [e|ta] eqn:Ea end;
    [discriminate|].
  simpl. intros H; inversion H; subst; clear H.
  apply Amount_init_inr in Ea. destruct Ea as (-> & Ho & Hm). simpl. auto.
Qed.

(** ** Claims *)

(** C9: constructing an [Amount] with an offset other than 100, or with a
    value that is not a multiple of 100, raises [ValueError]; otherwise the
    constructed [Amount] keeps the value and offset it was given, so its
    offset is 100 and its value is divisible by 100. *)
Theorem Amount_init_validates (v o : Z) :
  match Amount_init v o with
  | inl e => e = ValueError /\ (o <> VALUE_OFFSET \/ v mod VALUE_OFFSET <> 0)
  | inr x => x = mkAmount v o /\ o = VALUE_OFFSET /\ v mod VALUE_OFFSET = 0
  end.
Proof.
  unfold Amount_init.
  destruct (Z.eqb_spec o VALUE_OFFSET) as [Ho|Ho]; simpl.
  - destruct (Z.eqb_spec (v mod VALUE_OFFSET) 0) as [Hv|Hv]; simpl; auto.
  - auto.
Qed.

(** C1: in the message [send_order_details_msg] posts, [total_amount] is
    subtotal + tax + shipping - discount (each when present), hence the
    subtotal when none is present; nothing clamps it at zero. *)
Theorem send_total_amount cfg a w w' :
  send_order_details_msg cfg a w = (inr tt, w') ->
  exists req, last_post w' = Some req /\
    aj_value (i_total_amount (r_interactive req)) =
      aj_value (o_subtotal (i_order (r_interactive req)))
      + opt_value (tax_amount a) + opt_value (shipping_amount a)
      - opt_value (discount_amount a) /\
    (tax_amount a = None -> shipping_amount a = None -> discount_amount a = None ->
     aj_value (i_total_amount (r_interactive req)) =
     aj_value (o_subtotal (i_order (r_interactive req)))).
Proof.
  intros H. destruct (send_success_inv _ _ _ _ H) as (i & Hb & Hp).
  destruct (build_interactive_inv _ _ _ Hb) as (first & rest & p & _ & _ & Ho & Ht).
  exists (mkRequest (recipient_phone_number a) i). split; [exact Hp|]. simpl.
  rewrite Ho, Ht. simpl. split; [reflexivity|].
  intros -> -> ->. simpl. lia.
Qed.

(** C2: the posted subtotal is the sum of [effective_amount.value * quantity]
    over all items (the sale amount when present), and every item's
    effective amount, whatever its quantity, has the order's offset. *)
Theorem send_subtotal cfg a w w' :
  send_order_details_msg cfg a w = (inr tt, w') ->
  exists req, last_post w' = Some req /\
    aj_value (o_subtotal (i_order (r_interactive req))) = sum_effective (items a) /\
    Forall (fun it => offset (effective_amount it) = order_offset_of a) (items a).
Proof.
  intros H. destruct (send_success_inv _ _ _ _ H) as (i & Hb & Hp).
  destruct (build_interactive_inv _ _ _ Hb) as (first & rest & p & Ei & El & Ho & _).
  destruct (items_loop_spec _ _ _ _ El) as [Hs Hf].
  exists (mkRequest (recipient_phone_number a) i). split; [exact Hp|]. simpl.
  rewrite Ho. simpl. split; [lia|].
  unfold order_offset_of. rewrite Ei. rewrite Ei in Hf. exact Hf.
Qed.

(** ** More builder lemmas *)

Lemma built_amount_inv x : built_amount x -> offset x = VALUE_OFFSET /\ value x mod VALUE_OFFSET = 0.
Proof.
  intros (v & o & H). apply Amount_init_inr in H. destruct H as (-> & -> & Hm). auto.
Qed.

Lemma Amount_init_ok v : v mod VALUE_OFFSET = 0 -> Amount_init v VALUE_OFFSET = inr (mkAmount v VALUE_OFFSET).
Proof. intros H. unfold Amount_init. rewrite Z.eqb_refl, H. reflexivity. Qed.

Lemma items_loop_ok off t its :
  Forall (fun it => offset (effective_amount it) = off) its ->
  exists l, items_loop off t its = inr (l, t + sum_effective its).
Proof.
  revert t; induction its as [|it rest IH]; intros t Hf; simpl.
  - exists []. f_equal. f_equal. lia.
  - inversion Hf as [|? ? Hit Hrest]; subst.
    rewrite Z.eqb_refl. simpl.
    destruct (IH (t + value (effective_amount it) * quantity it) Hrest) as [l Hl].
    rewrite Hl. simpl. exists (item_to_json it :: l). f_equal. f_equal. lia.
Qed.

Lemma sum_effective_mod its :
  Forall (fun it => value (effective_amount it) mod VALUE_OFFSET = 0) its ->
  sum_effective its mod VALUE_OFFSET = 0.
Proof.
  induction its as [|it rest IH]; intros Hf; simpl; [reflexivity|].
  inversion Hf as [|? ? Hit Hrest]; subst.
  rewrite Z.add_mod, Z.mul_mod by (unfold VALUE_OFFSET; lia).
  rewrite Hit, (IH Hrest). reflexivity.
Qed.

Lemma effective_built it :
  built_amount (amount it) /\ opt_built (sale_amount it) -> built_amount (effective_amount it).
Proof. unfold effective_amount. destruct (sale_amount it); simpl; tauto. Qed.

Lemma opt_built_mod o : opt_built o -> opt_value o mod VALUE_OFFSET = 0.
Proof. destruct o as [x|]; simpl; [intros H; apply built_amount_inv in H; tauto | reflexivity]. Qed.

Lemma mod0_add x y :
  x mod VALUE_OFFSET = 0 -> y mod VALUE_OFFSET = 0 -> (x + y) mod VALUE_OFFSET = 0.
Proof.
  intros Hx Hy. rewrite Z.add_mod by (unfold VALUE_OFFSET; lia). rewrite Hx, Hy. reflexivity.
Qed.

Lemma mod0_sub x y :
  x mod VALUE_OFFSET = 0 -> y mod VALUE_OFFSET = 0 -> (x - y) mod VALUE_OFFSET = 0.
Proof.
  intros Hx Hy. rewrite Zminus_mod, Hx, Hy. reflexivity.
Qed.

(** The arguments with the offsets of the tax, shipping and discount
    amounts replaced. *)
Definition with_charge_offsets (a : OrderDetailsArgs) (o1 o2 o3 : Z) : OrderDetailsArgs :=
  mkArgs (goods_type a) (sender_phone_number a) (recipient_phone_number a) (reference_id a)
    (msg_body a) (items a)
    (option_map (fun t => mkAmount (value t) o1) (tax_amount a)) (tax_desc a)
    (option_map (fun s => mkAmount (value s) o2) (shipping_amount a)) (shipping_desc a)
    (option_map (fun d => mkAmount (value d) o3) (discount_amount a)) (discount_desc a)
    (discount_program_name a) (catalog_id a) (msg_header a) (msg_footer a)
    (expiration_in_sec a) (expiration_desc a).

(** ** Sample inputs *)

Definition cfg0 : CheckoutConfig := mkConfig "token-0" "app-secret-0" "102030" "payconf-0".

(** A server that answers every request. *)
Definition server_ok {E} (t : list E) (ev : E) : res unit := inr tt.

(** A fresh process: empty cache, one number registered on the account. *)
Definition world0 : World := mkWorld [] (Some [("+91 99999-00000", "pnid-0")]) [] server_ok.

Definition item_A : Item := mkItem "A" (mkAmount 1000 100) 2 None None None None None None.

Definition args_of (its : list Item) (tax shipping discount : option Amount) : OrderDetailsArgs :=
  mkArgs "digital-goods" "919999900000" "918888800000" "ref-0" "Your order" its
    tax None shipping None discount None None None None None None None.

Example spec_scenario_tax :
  last_post (snd (send_order_details_msg cfg0 (args_of [item_A] (Some (mkAmount 100 100)) None None) world0))
  = Some (mkRequest "918888800000"
      (mkInteractive "order_details" "Your order" None None "review_and_pay" "ref-0" "digital-goods"
         "upi" "payconf-0" "INR"
         (mkOrderJson "pending" None None
            [mkItemJson "A" (mkAmountJson 1000 100) 2 None None None None None None]
            (mkAmountJson 2000 100) (Some (mkChargeJson 100 100 None None)) None None)
         (mkAmountJson 2100 100))).
Proof. vm_compute. reflexivity. Qed.

(** C10: when every item amount, sale amount, tax, shipping and discount
    went through [Amount.__init__], the total is a multiple of 100 and the
    final [Amount(total, offset)] does not raise: with the items non-empty
    and the header absent or well formed, the payload is built, its total
    has offset 100 and a value divisible by 100, and a call of
    [send_order_details_msg] that fails does so in the sender lookup or in
    the post of this payload, never in the builder. *)
Theorem send_total_amount_constructs cfg a w :
  Forall (fun it => built_amount (amount it) /\ opt_built (sale_amount it)) (items a) ->
  opt_built (tax_amount a) -> opt_built (shipping_amount a) -> opt_built (discount_amount a) ->
  items a <> [] ->
  (exists hd, header_to_json (msg_header a) = inr hd) ->
  exists i, build_interactive cfg a = inr i /\
    aj_offset (i_total_amount i) = VALUE_OFFSET /\
    aj_value (i_total_amount i) mod VALUE_OFFSET = 0 /\
    (forall e, fst (send_order_details_msg cfg a w) = inl e ->
       fst (_get_sender_phone_number_id cfg (sender_phone_number a) w) = inl e \/
       exists pid w1, _get_sender_phone_number_id cfg (sender_phone_number a) w = (inr pid, w1) /\
         http_answer w1 (trace w1) (EvPostMessage pid (mkRequest (recipient_phone_number a) i))
           = inl e).
Proof.
  intros Hits Ht Hs Hd Hne [hd Hh].
  assert (Heff : Forall (fun it => offset (effective_amount it) = VALUE_OFFSET /\
                                   value (effective_amount it) mod VALUE_OFFSET = 0) (items a)).
  { eapply Forall_impl; [|exact Hits]. intros it Hit.
    apply built_amount_inv, effective_built, Hit. }
  assert (Hb : exists i, build_interactive cfg a = inr i).
  { unfold build_interactive. rewrite Hh. simpl.
    destruct (items a) as [|first rest] eqn:Ei; [congruence|].
    assert (Hf : offset (amount first) = VALUE_OFFSET).
    { inversion Hits as [|? ? [H1 _] _]; subst. apply built_amount_inv in H1. tauto. }
    rewrite Hf.
    destruct (items_loop_ok VALUE_OFFSET 0 (first :: rest)) as [l Hl].
    { eapply Forall_impl; [|exact Heff]. simpl. tauto. }
    rewrite Hl. simpl.
    assert (Hsum : sum_effective (first :: rest) mod VALUE_OFFSET = 0).
    { apply sum_effective_mod. eapply Forall_impl; [|exact Heff]. simpl. tauto. }
    apply opt_built_mod in Ht. apply opt_built_mod in Hs. apply opt_built_mod in Hd.
    match goal with |- context [Amount_init ?v VALUE_OFFSET] =>
      assert (Hv : v mod VALUE_OFFSET = 0) end.
    { destruct (tax_amount a), (shipping_amount a), (discount_amount a); simpl in *;
        repeat first [assumption | apply mod0_sub | apply mod0_add]. }
    rewrite (Amount_init_ok _ Hv). simpl. eexists. reflexivity. }
  destruct Hb as [i Hb]. exists i. split; [exact Hb|].
  destruct (build_interactive_total_amount _ _ _ Hb) as [Ho Hm]. split; [exact Ho|]. split; [exact Hm|].
  intros e.
  unfold send_order_details_msg, mbind, lift, request.
  destruct (_get_sender_phone_number_id cfg (sender_phone_number a) w) as [[e'|pid] w1].
  - simpl. intros H. left. congruence.
  - cbv beta iota. rewrite Hb. simpl. intros H. right. exists pid, w1. auto.
Qed.

(** C8: [send_order_details_msg] checks no offset of the tax, shipping and
    discount amounts: replacing these offsets by any others changes nothing
    in the call, and each present block is posted with its own value and
    the order's offset. *)
Theorem send_charges_unchecked cfg a :
  (forall o1 o2 o3 w,
     send_order_details_msg cfg (with_charge_offsets a o1 o2 o3) w = send_order_details_msg cfg a w) /\
  (forall w w', send_order_details_msg cfg a w = (inr tt, w') ->
   exists req, last_post w' = Some req /\
     o_tax (i_order (r_interactive req)) =
       option_map (fun t => charge (value t) (order_offset_of a) (tax_desc a) None) (tax_amount a) /\
     o_shipping (i_order (r_interactive req)) =
       option_map (fun s => charge (value s) (order_offset_of a) (shipping_desc a) None)
         (shipping_amount a) /\
     o_discount (i_order (r_interactive req)) =
       option_map (fun d => charge (value d) (order_offset_of a) (discount_desc a)
                              (discount_program_name a)) (discount_amount a)).
Proof.
  split.
  - intros o1 o2 o3 w. unfold send_order_details_msg, build_interactive, with_charge_offsets. simpl.
    destruct (tax_amount a), (shipping_amount a), (discount_amount a); reflexivity.
  - intros w w' H. destruct (send_success_inv _ _ _ _ H) as (i & Hb & Hp).
    destruct (build_interactive_inv _ _ _ Hb) as (first & rest & p & Ei & _ & Ho & _).
    exists (mkRequest (recipient_phone_number a) i). split; [exact Hp|]. simpl.
    rewrite Ho. unfold order_offset_of. rewrite Ei. simpl. auto.
Qed.

Lemma header_to_json_error h e : header_to_json h = inl e -> e = ValueError.
Proof.
  unfold header_to_json. destruct h as [hd|]; [|discriminate].
  destruct (String.eqb (h_type hd) "text" && str_truthy (h_text hd)); [discriminate|].
  destruct (String.eqb (h_type hd) "image" && str_truthy (h_image_link hd)); [discriminate|].
  congruence.
Qed.

(** C5: with no items, [send_order_details_msg] always raises and posts
    nothing: the state it leaves is the one the sender lookup left, which
    adds at most the directory fetch (when the cache is empty). A failing
    lookup raises its own error; once it succeeds, an invalid header raises
    [ValueError], and otherwise [items[0]] raises [IndexError]. *)
Theorem send_empty_items cfg a w :
  items a = [] ->
  send_order_details_msg cfg a w =
    (inl (match fst (_get_sender_phone_number_id cfg (sender_phone_number a) w) with
          | inl e => e
          | inr _ => match header_to_json (msg_header a) with
                     | inl _ => ValueError
                     | inr _ => IndexError
                     end
          end),
     snd (_get_sender_phone_number_id cfg (sender_phone_number a) w)) /\
  trace (snd (_get_sender_phone_number_id cfg (sender_phone_number a) w)) =
    match phone_map w with [] => [EvGetPhoneNumbers (get_waba cfg)] | _ => [] end ++ trace w.
Proof.
  intros He. split.
  - unfold send_order_details_msg, mbind, lift.
    destruct (_get_sender_phone_number_id cfg (sender_phone_number a) w) as [[e|pid] w1];
      [reflexivity|].
    cbv beta iota. unfold build_interactive.
    destruct (header_to_json (msg_header a)) as [e|hd] eqn:Eh; cbn [rbind fst snd].
    + rewrite (header_to_json_error _ _ Eh). reflexivity.
    + rewrite He. reflexivity.
  - unfold _get_sender_phone_number_id, _load_phone_numbers, mbind, emit, set_phone_map.
    destruct (phone_map w) as [|kv m] eqn:Em; cbv beta iota.
    + destruct (phone_numbers_api w) as [[|d ds]|]; simpl; try reflexivity.
      destruct (dict_get _ (sender_phone_number a)); reflexivity.
    + rewrite <- Em. destruct (dict_get (phone_map w) (sender_phone_number a)); reflexivity.
Qed.

(** ** Witnesses and counterexamples for the builder claims *)

Ltac built_by_init :=
  match goal with |- built_amount ?x => exists (value x), (offset x); reflexivity end.

(** One item of 1000 x 2, a tax of 100 and a discount of 5000. *)
Definition args_neg : OrderDetailsArgs :=
  args_of [item_A] (Some (mkAmount 100 100)) None (Some (mkAmount 5000 100)).

Lemma send_total_amount_witness :
  exists req, last_post (snd (send_order_details_msg cfg0 args_neg world0)) = Some req /\
    aj_value (i_total_amount (r_interactive req)) =
      aj_value (o_subtotal (i_order (r_interactive req))) + 100 - 5000 /\
    aj_value (i_total_amount (r_interactive req)) = -2900.
Proof.
  destruct (send_total_amount cfg0 args_neg world0
              (snd (send_order_details_msg cfg0 args_neg world0))) as (req & Hp & Ht & _).
  { vm_compute. reflexivity. }
  exists req. split; [exact Hp|]. split; [rewrite Ht; simpl; lia|].
  vm_compute in Hp. injection Hp as <-. reflexivity.
Defined.

(** An item with quantity 0 and a sale amount: it adds nothing. *)
Definition item_zero : Item :=
  mkItem "B" (mkAmount 700 100) 0 (Some (mkAmount 500 100)) (Some "sku-b") None None None None.

Definition args_two : OrderDetailsArgs := args_of [item_A; item_zero] None None None.

Lemma send_subtotal_witness :
  exists req, last_post (snd (send_order_details_msg cfg0 args_two world0)) = Some req /\
    aj_value (o_subtotal (i_order (r_interactive req))) = 1000 * 2 + 500 * 0 /\
    Forall (fun it => offset (effective_amount it) = 100) (items args_two).
Proof.
  destruct (send_subtotal cfg0 args_two world0
              (snd (send_order_details_msg cfg0 args_two world0))) as (req & Hp & Hs & Hf).
  { vm_compute. reflexivity. }
  exists req. split; [exact Hp|]. split; [rewrite Hs; reflexivity | exact Hf].
Defined.

Definition item_sale : Item :=
  mkItem "C" (mkAmount 2000 100) 3 (Some (mkAmount 1500 100)) None None None None None.

Definition args_built : OrderDetailsArgs :=
  args_of [item_A; item_sale] (Some (mkAmount 300 100)) (Some (mkAmount 200 100))
    (Some (mkAmount 9900 100)).

Lemma send_total_amount_constructs_witness :
  exists i, build_interactive cfg0 args_built = inr i /\
    aj_offset (i_total_amount i) = VALUE_OFFSET /\
    aj_value (i_total_amount i) mod VALUE_OFFSET = 0 /\
    (forall e, fst (send_order_details_msg cfg0 args_built world0) = inl e ->
       fst (_get_sender_phone_number_id cfg0 (sender_phone_number args_built) world0) = inl e \/
       exists pid w1, _get_sender_phone_number_id cfg0 (sender_phone_number args_built) world0
                        = (inr pid, w1) /\
         http_answer w1 (trace w1) (EvPostMessage pid (mkRequest (recipient_phone_number args_built) i))
           = inl e).
Proof.
  apply send_total_amount_constructs.
  - repeat constructor; simpl; built_by_init.
  - simpl. built_by_init.
  - simpl. built_by_init.
  - simpl. built_by_init.
  - discriminate.
  - exists None. reflexivity.
Defined.

(** A tax amount whose offset (1) is not the order's (100), as
    [tax = Amount(100); tax.offset = 1] builds it: [Amount.__init__] checks
    the offset, but the attribute can be reassigned afterwards. *)
Definition args_badtax : OrderDetailsArgs := args_of [item_A] (Some (mkAmount 100 1)) None None.

Lemma send_charges_unchecked_witness :
  exists req, last_post (snd (send_order_details_msg cfg0 args_badtax world0)) = Some req /\
    o_tax (i_order (r_interactive req)) = Some (charge 100 100 None None).
Proof.
  destruct (proj2 (send_charges_unchecked cfg0 args_badtax) world0
              (snd (send_order_details_msg cfg0 args_badtax world0))) as (req & Hp & Ht & _).
  { vm_compute. reflexivity. }
  exists req. split; [exact Hp | rewrite Ht; reflexivity].
Defined.

Lemma send_charges_unchecked_counterexample :
  fst (send_order_details_msg cfg0 args_badtax world0) = inr tt /\
  last_post (snd (send_order_details_msg cfg0 args_badtax world0)) =
    Some (mkRequest "918888800000"
      (mkInteractive "order_details" "Your order" None None "review_and_pay" "ref-0" "digital-goods"
         "upi" "payconf-0" "INR"
         (mkOrderJson "pending" None None
            [mkItemJson "A" (mkAmountJson 1000 100) 2 None None None None None None]
            (mkAmountJson 2000 100) (Some (mkChargeJson 100 100 None None)) None None)
         (mkAmountJson 2100 100))).
Proof. vm_compute. split; reflexivity. Qed.

Definition args_empty : OrderDetailsArgs := args_of [] None None None.

Lemma send_empty_items_witness :
  send_order_details_msg cfg0 args_empty world0 =
    (inl IndexError, snd (_get_sender_phone_number_id cfg0 "919999900000" world0)) /\
  trace (snd (_get_sender_phone_number_id cfg0 "919999900000" world0)) = [EvGetPhoneNumbers "102030"].
Proof.
  destruct (send_empty_items cfg0 args_empty world0) as [H1 H2]; [reflexivity|].
  split; [rewrite H1; vm_compute; reflexivity | exact H2].
Defined.

(** With a fresh cache, the directory is fetched and then [items[0]] raises
    [IndexError], not [ValueError]. *)
Lemma send_empty_items_counterexample :
  fst (send_order_details_msg cfg0 args_empty world0) = inl IndexError /\
  trace (snd (send_order_details_msg cfg0 args_empty world0)) = [EvGetPhoneNumbers "102030"].
Proof. vm_compute. split; reflexivity. Qed.

(** ** The signature check *)

(** [hmac_calculated] in [verify_webhook]. *)
Definition hmac_calculated (cfg : CheckoutConfig) (payload : string) : string :=
  hexdigest (Sha256.hmac_sha256 (utf8_encode (get_app_secret cfg)) (utf8_encode payload)).

Definition hex_char (c : ascii) : Prop :=
  let n := nat_of_ascii c in (48 <= n <= 57)%nat \/ (97 <= n <= 102)%nat.

Lemma sha256_bytes m : Forall (fun b => 0 <= b < 256) (Sha256.sha256 m).
Proof.
  unfold Sha256.sha256. generalize (fold_left Sha256.compress (Sha256.chunks (List.length (Sha256.pad m)) (Sha256.pad m)) Sha256.H0) as hs.
  induction hs as [|x hs IH]; simpl; [constructor|].
  repeat constructor; try apply Z.mod_pos_bound; try lia.
  all: exact IH.
Qed.

Lemma hex_digit_hex n : 0 <= n < 16 -> hex_char (hex_digit n).
Proof.
  intros Hn. unfold hex_char, hex_digit.
  destruct (Z.ltb_spec n 10); rewrite nat_ascii_embedding by lia; lia.
Qed.

Lemma hexdigest_hex bs :
  Forall (fun b => 0 <= b < 256) bs -> Forall hex_char (list_ascii_of_string (hexdigest bs)).
Proof.
  unfold hexdigest. rewrite list_ascii_of_string_of_list_ascii.
  induction 1 as [|b bs Hb _ IH]; simpl; [constructor|].
  constructor; [apply hex_digit_hex; split; [apply Z.div_pos | apply Z.div_lt_upper_bound]; lia|].
  constructor; [apply hex_digit_hex; apply Z.mod_pos_bound; lia | exact IH].
Qed.

Lemma hmac_calculated_hex cfg payload :
  Forall hex_char (list_ascii_of_string (hmac_calculated cfg payload)).
Proof. apply hexdigest_hex, sha256_bytes. Qed.

Lemma hex_is_ascii s : Forall hex_char (list_ascii_of_string s) -> is_ascii s = true.
Proof.
  intros H. unfold is_ascii. apply forallb_forall. intros c Hc.
  rewrite Forall_forall in H. specialize (H c Hc). unfold hex_char in H.
  apply Nat.ltb_lt. lia.
Qed.

Lemma hex_not_prefixed s : Forall hex_char (list_ascii_of_string s) -> String.prefix "sha256=" s = false.
Proof.
  destruct s as [|c s']; [reflexivity|]. intros H; inversion H as [|? ? Hc _]; subst.
  change (String.prefix "sha256=" (String c s'))
    with (if ascii_dec "s" c then String.prefix "ha256=" s' else false).
  destruct (ascii_dec "s" c) as [<-|]; [|reflexivity].
  unfold hex_char in Hc. change (nat_of_ascii "s") with 115%nat in Hc. lia.
Qed.

Lemma prefix_app p d : String.prefix p (p ++ d)%string = true.
Proof.
  induction p as [|c p IH]; simpl; [destruct d; reflexivity|].
  destruct (ascii_dec c c); [exact IH | congruence].
Qed.

Lemma append_inj_l p r d : (p ++ r)%string = (p ++ d)%string -> r = d.
Proof. induction p as [|c p IH]; simpl; [auto|]. intros H; injection H; auto. Qed.

Lemma substring_all d m : (String.length d <= m)%nat -> substring 0 m d = d.
Proof.
  revert m; induction d as [|c d IH]; intros m Hm; destruct m; simpl in *; auto; [lia|].
  f_equal. apply IH. lia.
Qed.

Lemma prefix_split p h m :
  String.prefix p h = true -> (String.length h <= m)%nat ->
  h = (p ++ substring (String.length p) m h)%string.
Proof.
  revert h; induction p as [|c p IH]; intros h Hp Hm; simpl.
  - symmetry. apply substring_all. exact Hm.
  - destruct h as [|c' h]; [discriminate|]. simpl in Hp.
    destruct (ascii_dec c c') as [<-|]; [|discriminate].
    f_equal. apply IH; [exact Hp | simpl in Hm; lia].
Qed.

(** Comparing the stripped header with a hex digest: the header is either
    the prefixed digest or the bare digest. *)
Lemma removeprefix_eqb_hex h d :
  Forall hex_char (list_ascii_of_string d) ->
  String.eqb (removeprefix h "sha256=") d =
  (String.eqb h ("sha256=" ++ d)%string || String.eqb h d)%bool.
Proof.
  intros Hd. pose proof (hex_not_prefixed _ Hd) as Hnp. unfold removeprefix.
  destruct (String.prefix "sha256=" h) eqn:P.
  - pose proof (prefix_split _ _ (String.length h) P (le_n _)) as Hs.
    remember (substring (String.length "sha256=") (String.length h) h) as r.
    rewrite Hs.
    destruct (String.eqb_spec r d) as [->|Hrd].
    + rewrite String.eqb_refl. reflexivity.
    + destruct (String.eqb_spec ("sha256=" ++ r)%string ("sha256=" ++ d)%string) as [E|];
        [apply append_inj_l in E; congruence|].
      destruct (String.eqb_spec ("sha256=" ++ r)%string d) as [E|]; [|reflexivity].
      rewrite <- E, prefix_app in Hnp. discriminate.
  - destruct (String.eqb_spec h ("sha256=" ++ d)%string) as [E|]; [|reflexivity].
    rewrite E, prefix_app in P. discriminate.
Qed.

(** C3: given a signature header value [h], [verify_webhook] compares
    it with the hex HMAC-SHA256 digest of the body only when [h], stripped
    of one optional ["sha256="] prefix, is ASCII: it then returns true
    exactly when [h] is ["sha256="] followed by the digest or the digest
    alone without the prefix. Otherwise [hmac.compare_digest] raises
    [TypeError], so a bit flip that makes the header non-ASCII raises
    instead of returning false. *)
Theorem verify_webhook_digest cfg headers payload h :
  dict_get headers "X-Hub-Signature-256" = Some h ->
  verify_webhook cfg headers payload =
    if is_ascii (removeprefix h "sha256=")
    then inr (String.eqb h ("sha256=" ++ hmac_calculated cfg payload)%string
              || String.eqb h (hmac_calculated cfg payload))%bool
    else inl TypeError.
Proof.
  intros Hh. unfold verify_webhook. rewrite Hh.
  change (hexdigest _) with (hmac_calculated cfg payload).
  unfold compare_digest. rewrite (hex_is_ascii _ (hmac_calculated_hex cfg payload)).
  destruct (is_ascii (removeprefix h "sha256=")); [|reflexivity]. simpl.
  rewrite removeprefix_eqb_hex by apply hmac_calculated_hex. reflexivity.
Qed.

(** C4: [verify_webhook] returns a boolean exactly when the
    [X-Hub-Signature-256] entry exists and is ASCII once stripped of its
    prefix; it raises [KeyError] when the entry is absent and [TypeError]
    when the stripped value holds a non-ASCII character. *)
Theorem verify_webhook_errors cfg headers payload :
  match verify_webhook cfg headers payload with
  | inr _ => exists h, dict_get headers "X-Hub-Signature-256" = Some h /\
                       is_ascii (removeprefix h "sha256=") = true
  | inl e => (e = KeyError /\ dict_get headers "X-Hub-Signature-256" = None) \/
             (e = TypeError /\ exists h, dict_get headers "X-Hub-Signature-256" = Some h /\
                                        is_ascii (removeprefix h "sha256=") = false)
  end.
Proof.
  unfold verify_webhook. destruct (dict_get headers "X-Hub-Signature-256") as [h|] eqn:Eh.
  - change (hexdigest _) with (hmac_calculated cfg payload).
    unfold compare_digest. rewrite (hex_is_ascii _ (hmac_calculated_hex cfg payload)).
    destruct (is_ascii (removeprefix h "sha256=")) eqn:Ea; simpl; eauto.
  - left. auto.
Qed.

(** ** Witnesses and counterexamples for the signature check *)

(** Flip bit [b] of the character at index [i]. *)
Definition flip_bit (s : string) (i b : nat) : string :=
  string_of_list_ascii
    (map (fun p => if Nat.eqb (fst p) i
                   then ascii_of_nat (Nat.lxor (nat_of_ascii (snd p)) (2 ^ b))
                   else snd p)
         (combine (seq 0 (String.length s)) (list_ascii_of_string s))).

Definition body0 : string := "{}".

Definition signed_headers (cfg : CheckoutConfig) (payload : string) : list (string * string) :=
  [("X-Hub-Signature-256", ("sha256=" ++ hmac_calculated cfg payload)%string)].

Lemma verify_webhook_digest_witness :
  verify_webhook cfg0 (signed_headers cfg0 body0) body0 = inr true.
Proof.
  rewrite (verify_webhook_digest cfg0 (signed_headers cfg0 body0) body0
             ("sha256=" ++ hmac_calculated cfg0 body0)%string).
  - vm_compute. reflexivity.
  - reflexivity.
Defined.

(** The bare digest is accepted; flipping the low bit of the first digest
    character gives false, flipping its high bit raises [TypeError]. *)
Lemma verify_webhook_digest_counterexample :
  verify_webhook cfg0 [("X-Hub-Signature-256", hmac_calculated cfg0 body0)] body0 = inr true /\
  verify_webhook cfg0 [("X-Hub-Signature-256",
                         flip_bit ("sha256=" ++ hmac_calculated cfg0 body0)%string 7 0)] body0
    = inr false /\
  verify_webhook cfg0 [("X-Hub-Signature-256",
                         flip_bit ("sha256=" ++ hmac_calculated cfg0 body0)%string 7 7)] body0
    = inl TypeError.
Proof. vm_compute. split; [|split]; reflexivity. Qed.

(** No signature header: [KeyError]. *)
Lemma verify_webhook_errors_counterexample :
  verify_webhook cfg0 [] body0 = inl KeyError /\
  verify_webhook cfg0 [("X-Hub-Signature-256",
                         flip_bit ("sha256=" ++ hmac_calculated cfg0 body0)%string 7 7)] body0
    = inl TypeError.
Proof. vm_compute. split; reflexivity. Qed.

(** ** Sample callback bodies *)

Definition dq : string := String (ascii_of_nat 34) EmptyString.

Fixpoint z_digits (fuel : nat) (n : Z) (acc : string) : string :=
  match fuel with
  | O => acc
  | S f =>
      let acc' := String (ascii_of_nat (48 + Z.to_nat (n mod 10))) acc in
      if Z.ltb n 10 then acc' else z_digits f (n / 10) acc'
  end.

Definition z_to_string (n : Z) : string :=
  if Z.ltb n 0 then ("-" ++ z_digits 64 (- n) "")%string else z_digits 64 n "".

(** [json.dumps] with its default separators, for strings that need no
    escaping. *)
Fixpoint json_dumps (v : json) : string :=
  match v with
  | JNull => "null"
  | JBool true => "true"
  | JBool false => "false"
  | JNum n => z_to_string n
  | JString s => (dq ++ s ++ dq)%string
  | JArray l => ("[" ++ String.concat ", " (map json_dumps l) ++ "]")%string
  | JObject kvs =>
      ("{" ++ String.concat ", "
               (map (fun '(k, x) => dq ++ k ++ dq ++ ": " ++ json_dumps x) kvs) ++ "}")%string
  end.

(** [json.loads] on the texts [json.dumps] gives for a few known values. *)
Definition json_loads_of (known : list json) (s : string) : option json :=
  find (fun v => String.eqb (json_dumps v) s) known.

(** A callback for account [waba] carrying the [value] of one change. *)
Definition change_of (value : json) : json :=
  JObject [("field", JString "messages"); ("value", value)].

Definition entry_of (waba : string) (value : json) : json :=
  JObject [("id", JString waba); ("changes", JArray [change_of value])].

Definition callback (waba : string) (value : json) : json :=
  JObject [("object", JString "whatsapp_business_account"); ("entry", JArray [entry_of waba value])].

Definition metadata0 : json :=
  JObject [("display_phone_number", JString "919999900000"); ("phone_number_id", JString "pnid-0")].

Definition text_message : json :=
  JObject [("from", JString "918888800000"); ("id", JString "wamid.m1");
           ("type", JString "text"); ("text", JObject [("body", JString "hi")])].

Definition payment_status : json :=
  JObject [("id", JString "wamid.s1"); ("recipient_id", JString "918888800000");
           ("type", JString "payment"); ("status", JString "success");
           ("timestamp", JString "1700000000");
           ("payment", JObject [("reference_id", JString "ref-0")])].

(** A payment status update: a text message and a successful payment status. *)
Definition status_value : json :=
  JObject [("messaging_product", JString "whatsapp"); ("metadata", metadata0);
           ("messages", JArray [text_message]); ("statuses", JArray [payment_status])].

Definition status_body : string := json_dumps (callback "102030" status_value).

Definition confirmation_message : json :=
  JObject [("from", JString "918888800000"); ("id", JString "wamid.m2"); ("type", JString "interactive");
           ("interactive", JObject [("type", JString "payment");
              ("payment", JObject [("transaction_id", JString "txn-9"); ("reference_id", JString "ref-0");
                                   ("status", JString "success")])])].

(** A payment confirmation that also carries a matching status entry. *)
Definition confirmation_value : json :=
  JObject [("messaging_product", JString "whatsapp"); ("metadata", metadata0);
           ("messages", JArray [confirmation_message]); ("statuses", JArray [payment_status])].

Definition confirmation_body : string := json_dumps (callback "102030" confirmation_value).

(** An interactive object of type payment without its [payment] object. *)
Definition bare_confirmation_value : json :=
  JObject [("messaging_product", JString "whatsapp"); ("metadata", metadata0);
           ("messages", JArray [JObject [("from", JString "918888800000");
                                         ("interactive", JObject [("type", JString "payment")])]])].

Definition bare_confirmation_body : string := json_dumps (callback "102030" bare_confirmation_value).

Definition loads0 : string -> option json :=
  json_loads_of [callback "102030" status_value; callback "102030" confirmation_value;
                 callback "102030" bare_confirmation_value].

(** After one order was sent, the cache holds the merchant's number. *)
Definition world1 : World := mkWorld [("919999900000", "pnid-0")] None [] server_ok.

Example status_body_text :
  substring 0 51 status_body = ("{" ++ dq ++ "object" ++ dq ++ ": " ++ dq ++ "whatsapp_business_account"
                                ++ dq ++ ", " ++ dq ++ "entry" ++ dq ++ ": [{")%string.
Proof. vm_compute. reflexivity. Qed.

Example loads0_status : loads0 status_body = Some (callback "102030" status_value).
Proof. vm_compute. reflexivity. Qed.

(** ** Lemmas about the handler *)

Lemma mbind_lift_inr {A B} (x : A) (k : A -> M B) w : mbind (lift (inr x)) k w = k x w.
Proof. reflexivity. Qed.

Lemma mbind_lift_inl {A B} (e : exc) (k : A -> M B) w : mbind (lift (inl e)) k w = (inl e, w).
Proof. reflexivity. Qed.

Lemma path_key_truthy v k x : path v [K k] = inr x -> truthy v = true.
Proof.
  destruct v as [| | | | |kvs]; cbn; try discriminate.
  destruct kvs; [discriminate | reflexivity].
Qed.

Lemma is_str_refl s : is_str (JString s) s = true.
Proof. apply String.eqb_refl. Qed.

#[local] Arguments mbind : simpl never.
#[local] Arguments lift : simpl never.
#[local] Arguments mret : simpl never.
#[local] Arguments path : simpl never.
#[local] Arguments verify_webhook : simpl never.

Ltac bind_with H := rewrite H; simpl; rewrite mbind_lift_inr; simpl.

(** C6 (code bug): for a verified callback that passes the account and
    field guards, whose first message is no payment confirmation and whose
    first status entry is a payment status update, [handle_webhook_call]
    raises [AttributeError] at line 336 ([status] was rebound to the status
    string at line 335) and issues no payment-status query. *)
Theorem handle_status_update_raises json_loads cfg headers payload data entry change value m
    interactive st s w :
  json_loads payload = Some data ->
  verify_webhook cfg headers payload = inr true ->
  path data [K "object"] = inr (JString "whatsapp_business_account") ->
  path data [K "entry"; I0] = inr entry ->
  path entry [K "id"] = inr (JString (get_waba cfg)) ->
  path entry [K "changes"; I0] = inr change ->
  path change [K "field"] = inr (JString "messages") ->
  path change [K "value"] = inr value ->
  path value [K "messages"; I0] = inr m ->
  py_get m "interactive" = inr interactive ->
  (truthy interactive = false \/
   exists t, path interactive [K "type"] = inr t /\ is_str t "payment" = false) ->
  path value [K "statuses"; I0] = inr st ->
  (exists x, py_get st "recipient_id" = inr x /\ truthy x = true) ->
  py_get st "type" = inr (JString "payment") ->
  py_get st "status" = inr (JString s) ->
  in_statuses (JString s) = true ->
  (exists x, py_get st "timestamp" = inr x /\ truthy x = true) ->
  (exists p r, py_get st "payment" = inr p /\ path p [K "reference_id"] = inr r /\ truthy r = true) ->
  handle_webhook_call json_loads cfg headers payload w = (inl AttributeError, w).
Proof.
  intros Hj Hv Ho He Hid Hc Hf Hval Hm Hi Hni Hst _ Hty Hs _ _ _.
  destruct st as [| | | | |kvs]; try discriminate Hty.
  simpl in Hs. injection Hs as Hs.
  unfold handle_webhook_call.
  rewrite Hv, mbind_lift_inr. simpl.
  rewrite Hj, mbind_lift_inr. simpl.
  bind_with Ho.
  bind_with He.
  bind_with Hid. rewrite String.eqb_refl. simpl.
  bind_with Hc.
  bind_with Hf.
  bind_with Hval.
  rewrite Hm. simpl. rewrite Hi, mbind_lift_inr. simpl.
  destruct Hni as [Hft | (t & Ht & Hp)].
  - rewrite Hft, mbind_lift_inr. simpl.
    bind_with Hst. rewrite !mbind_lift_inr. simpl. rewrite Hs. simpl.
    rewrite mbind_lift_inl. reflexivity.
  - destruct (truthy interactive).
    + rewrite Ht. simpl. rewrite Hp, mbind_lift_inr. simpl.
      bind_with Hst. rewrite !mbind_lift_inr. simpl. rewrite Hs. simpl.
      rewrite mbind_lift_inl. reflexivity.
    + rewrite mbind_lift_inr. simpl.
      bind_with Hst. rewrite !mbind_lift_inr. simpl. rewrite Hs. simpl.
      rewrite mbind_lift_inl. reflexivity.
Qed.

(** C7 (corrected): for a verified callback that passes the account and
    field guards, whose first message carries an interactive object of type
    payment with a payment object holding [transaction_id], [reference_id]
    and [status], and whose value has [metadata.display_phone_number],
    [handle_webhook_call] reports a [PaymentConfirmation] of these four
    values and returns with the world unchanged: no payment-status query,
    whatever the status entries say. *)
Theorem handle_payment_confirmation json_loads cfg headers payload data entry change value m
    interactive payment transaction_id reference_id status display w :
  json_loads payload = Some data ->
  verify_webhook cfg headers payload = inr true ->
  path data [K "object"] = inr (JString "whatsapp_business_account") ->
  path data [K "entry"; I0] = inr entry ->
  path entry [K "id"] = inr (JString (get_waba cfg)) ->
  path entry [K "changes"; I0] = inr change ->
  path change [K "field"] = inr (JString "messages") ->
  path change [K "value"] = inr value ->
  path value [K "messages"; I0] = inr m ->
  py_get m "interactive" = inr interactive ->
  path interactive [K "type"] = inr (JString "payment") ->
  path interactive [K "payment"] = inr payment ->
  path payment [K "transaction_id"] = inr transaction_id ->
  path payment [K "reference_id"] = inr reference_id ->
  path payment [K "status"] = inr status ->
  path value [K "metadata"; K "display_phone_number"] = inr display ->
  handle_webhook_call json_loads cfg headers payload w =
    (inr (PaymentConfirmation transaction_id reference_id status display), w).
Proof.
  intros Hj Hv Ho He Hid Hc Hf Hval Hm Hi Ht Hp Htx Href Hs Hd.
  pose proof (path_key_truthy _ _ _ Ht) as Htr.
  unfold handle_webhook_call.
  rewrite Hv, mbind_lift_inr. simpl.
  rewrite Hj, mbind_lift_inr. simpl.
  bind_with Ho.
  bind_with He.
  bind_with Hid. rewrite String.eqb_refl. simpl.
  bind_with Hc.
  bind_with Hf.
  bind_with Hval.
  rewrite Hm. simpl. rewrite Hi, mbind_lift_inr. simpl.
  rewrite Htr, Ht. simpl. rewrite mbind_lift_inr. simpl.
  rewrite Hp. simpl. rewrite Htx. simpl. rewrite Href. simpl. rewrite Hs. simpl.
  rewrite Hd. reflexivity.
Qed.

(** ** Witnesses and counterexamples for the handler *)

Lemma handle_status_update_raises_witness :
  handle_webhook_call loads0 cfg0 (signed_headers cfg0 status_body) status_body world1
  = (inl AttributeError, world1).
Proof.
  apply (handle_status_update_raises loads0 cfg0 (signed_headers cfg0 status_body) status_body
           (callback "102030" status_value) (entry_of "102030" status_value)
           (change_of status_value) status_value text_message JNull payment_status "success" world1).
  - vm_compute. reflexivity.
  - vm_compute. reflexivity.
  - reflexivity.
  - reflexivity.
  - reflexivity.
  - reflexivity.
  - reflexivity.
  - reflexivity.
  - reflexivity.
  - reflexivity.
  - left. reflexivity.
  - reflexivity.
  - exists (JString "918888800000"). split; reflexivity.
  - reflexivity.
  - reflexivity.
  - reflexivity.
  - exists (JString "1700000000"). split; reflexivity.
  - exists (JObject [("reference_id", JString "ref-0")]), (JString "ref-0"). repeat split.
Defined.

Lemma handle_payment_confirmation_witness :
  handle_webhook_call loads0 cfg0 (signed_headers cfg0 confirmation_body) confirmation_body world1
  = (inr (PaymentConfirmation (JString "txn-9") (JString "ref-0") (JString "success")
            (JString "919999900000")), world1).
Proof.
  apply (handle_payment_confirmation loads0 cfg0 (signed_headers cfg0 confirmation_body)
           confirmation_body (callback "102030" confirmation_value)
           (entry_of "102030" confirmation_value) (change_of confirmation_value)
           confirmation_value confirmation_message
           (JObject [("type", JString "payment");
              ("payment", JObject [("transaction_id", JString "txn-9"); ("reference_id", JString "ref-0");
                                   ("status", JString "success")])])
           (JObject [("transaction_id", JString "txn-9"); ("reference_id", JString "ref-0");
                     ("status", JString "success")])).
  1-2: vm_compute; reflexivity.
  all: reflexivity.
Defined.

(** An interactive object of type payment without its payment object:
    [KeyError], no [PaymentConfirmation]. *)
Lemma handle_payment_confirmation_counterexample :
  handle_webhook_call loads0 cfg0 (signed_headers cfg0 bare_confirmation_body) bare_confirmation_body
    world1 = (inl KeyError, world1).
Proof. vm_compute. reflexivity. Qed.

(** * The rest of the program: the order status message, [example_util.py]
    and [main.py] *)

(** ** [CheckoutBase.send_order_status_msg] *)

(** The [interactive] object of an order status message. *)
Record status_interactive_json := mkStatusInteractive {
  si_type : string;
  si_body_text : string;
  si_action_name : string;
  si_reference_id : string;
  si_status : string;
  si_description : option string }.

Record status_request_json := mkStatusRequest {
  sr_to : string;
  sr_interactive : status_interactive_json }.

(** The HTTP requests of the whole program: those of [CheckoutBase]'s other
    methods, and the post of an order status message. *)
Inductive app_event :=
| Api (e : event)
| EvPostStatusMessage (phone_number_id : string) (req : status_request_json).

Record AppWorld := mkAppWorld {
  app_phone_map : list (string * string);
  app_phone_numbers_api : option (list (string * string));
  app_trace : list app_event;
  (** how the server answers a request, given the requests issued before it *)
  app_http_answer : list app_event -> app_event -> res unit }.

Definition AM (A : Type) : Type := AppWorld -> res A * AppWorld.

Definition amret {A} (x : A) : AM A := fun aw => (inr x, aw).
Definition ambind {A B} (m : AM A) (k : A -> AM B) : AM B :=
  fun aw => match m aw with (inl e, aw') => (inl e, aw') | (inr x, aw') => k x aw' end.
Definition alift {A} (r : res A) : AM A := fun aw => (r, aw).

Notation "x <~ m ;; k" := (ambind m (fun x => k))
  (at level 61, m at next level, right associativity).

(** The view of the program's state that [CheckoutBase]'s other methods
    have: the cache, the directory endpoint and the server, which sees the
    requests issued before [aw] as well; the requests they issue are added
    to the program's trace. *)
Definition world_of (aw : AppWorld) : World :=
  mkWorld (app_phone_map aw) (app_phone_numbers_api aw) []
    (fun t ev => app_http_answer aw (map Api t ++ app_trace aw) (Api ev)).

Definition embed {A} (m : M A) : AM A :=
  fun aw =>
    match m (world_of aw) with
    | (r, w') =>
        (r, mkAppWorld (phone_map w') (phone_numbers_api w') (map Api (trace w') ++ app_trace aw)
              (app_http_answer aw))
    end.

(** The post of an order status message and the parse of its response
    (lines 280-283). *)
Definition post_status (phone_number_id : string) (req : status_request_json) : AM unit :=
  fun aw => (app_http_answer aw (app_trace aw) (EvPostStatusMessage phone_number_id req),
             mkAppWorld (app_phone_map aw) (app_phone_numbers_api aw)
               (EvPostStatusMessage phone_number_id req :: app_trace aw) (app_http_answer aw)).

Definition send_order_status_msg (cfg : CheckoutConfig)
    (sender_phone_number recipient_phone_number reference_id msg_body status : string)
    (desc : option string) : AM unit :=
  phone_number_id <~ embed (_get_sender_phone_number_id cfg sender_phone_number) ;;
  let interactive :=
    mkStatusInteractive "order_status" msg_body "review_order" reference_id status (opt_if desc) in
  post_status phone_number_id (mkStatusRequest recipient_phone_number interactive).

(** ** [example_util.py] *)

(** [[f(x) for x in xs]], stopping at the first exception. *)
Fixpoint res_map {A B} (f : A -> res B) (l : list A) : res (list B) :=
  match l with
  | [] => inr []
  | x :: l' => y <-? f x ;; ys <-? res_map f l' ;; inr (y :: ys)
  end.

Definition get_example_sale_amount (original_amount_value : Z) : res Amount :=
  Amount_init (original_amount_value - 200) VALUE_OFFSET.

Definition get_example_tax_amount : res Amount := Amount_init 100 VALUE_OFFSET.

Definition get_example_shipping_amount : res Amount := Amount_init 100 VALUE_OFFSET.

Definition get_example_discount_amount : res Amount := Amount_init 200 VALUE_OFFSET.

(** One element of the comprehension in [get_example_items]; the keyword
    arguments of [Item(...)] are evaluated in order. *)
Definition example_item (includes_sale_amount : bool) (i : Z) : res Item :=
  amt <-? Amount_init (1000 * (i + 1)) VALUE_OFFSET ;;
  sale <-? (if includes_sale_amount
            then s <-? get_example_sale_amount (1000 * (i + 1)) ;; inr (Some s)
            else inr None) ;;
  inr (mkItem ("Product " ++ z_to_string (i + 1))%string amt (i + 1) sale None None None None None).

(** [range(number)] is empty when [number <= 0]. *)
Definition get_example_items (number : Z) (includes_sale_amount : bool) : res (list Item) :=
  res_map (example_item includes_sale_amount) (map Z.of_nat (seq 0 (Z.to_nat number))).

Definition get_header (header_text header_image_link : option string) : option Header :=
  if negb (str_truthy header_text) && negb (str_truthy header_image_link) then None
  else if str_truthy header_text then Some (mkHeader "text" header_text None)
  else Some (mkHeader "image" None header_image_link).

(** [string.ascii_letters + string.digits]. *)
Definition ref_chars : string :=
  "abcdefghijklmnopqrstuvwxyzABCDEFGHIJKLMNOPQRSTUVWXYZ0123456789".

(** [generate_reference_id]: [choice k] is the index [secrets.choice]
    draws in [ref_chars] at the [k]-th call. *)
Definition generate_reference_id (choice : nat -> nat) : string :=
  string_of_list_ascii
    (map (fun k => nth (choice k) (list_ascii_of_string ref_chars) "a"%char) (seq 0 32)).

(** ** [main.py] *)

(** The parsed command line: an option given with [nargs=1] is a one
    element list, [None] when absent; a flag is a [bool]. *)
Record MainArgs := mkMainArgs {
  args_goods_type : option string;
  args_msg_body : option string;
  args_item_number : option Z;
  args_tax_desc : option string;
  args_include_sale_amount : bool;
  args_include_shipping_value : bool;
  args_shipping_desc : option string;
  args_include_discount_value : bool;
  args_discount_desc : option string;
  args_discount_program_name : option string;
  args_catalog_id : option string;
  args_header_text : option string;
  args_header_image_link : option string;
  args_footer_text : option string;
  args_expiration_in_sec : option string;
  args_expiration_desc : option string }.

(** [x[0]] on an [nargs=1] option: [None[0]] raises [TypeError]. *)
Definition first_arg {A} (o : option A) : res A :=
  match o with Some x => inr x | None => inl TypeError end.

Definition opt_amount (include : bool) (r : res Amount) : res (option Amount) :=
  if include then x <-? r ;; inr (Some x) else inr None.

(** The keyword arguments [main] passes to [send_order_details_msg]. *)
Definition main_order_args (args : MainArgs) (goods_type sender recipient reference_id msg_body : string)
    (items : list Item) (tax shipping discount : option Amount) : OrderDetailsArgs :=
  mkArgs goods_type sender recipient reference_id msg_body items
    tax (args_tax_desc args) shipping (args_shipping_desc args)
    discount (args_discount_desc args) (args_discount_program_name args) (args_catalog_id args)
    (get_header (args_header_text args) (args_header_image_link args))
    (args_footer_text args) (args_expiration_in_sec args) (args_expiration_desc args).

(** [main]: [sender] and [recipient] are what the stubs
    [get_test_sender_phone_number] and [get_test_recipient_phone_number]
    return; the keyword arguments are evaluated in order before the call. *)
Definition main (cfg : CheckoutConfig) (sender recipient : string) (choice : nat -> nat)
    (args : MainArgs) : AM unit :=
  let reference_id := generate_reference_id choice in
  goods_type <~ alift (first_arg (args_goods_type args)) ;;
  msg_body <~ alift (first_arg (args_msg_body args)) ;;
  item_number <~ alift (first_arg (args_item_number args)) ;;
  items <~ alift (get_example_items item_number (args_include_sale_amount args)) ;;
  tax <~ alift (opt_amount true get_example_tax_amount) ;;
  shipping <~ alift (opt_amount (args_include_shipping_value args) get_example_shipping_amount) ;;
  discount <~ alift (opt_amount (args_include_discount_value args) get_example_discount_amount) ;;
  _ <~ embed (send_order_details_msg cfg
                (main_order_args args goods_type sender recipient reference_id msg_body
                   items tax shipping discount)) ;;
  _ <~ send_order_status_msg cfg sender recipient reference_id "Order Status Update" "processing" None ;;
  embed (get_payment_status cfg sender (JString reference_id)).

(** ** Properties of the rest of the program *)

Lemma dict_get_set {V} (d : list (string * V)) k v k' :
  dict_get (dict_set d k v) k' = if String.eqb k k' then Some v else dict_get d k'.
Proof.
  induction d as [|[k0 v0] d IH]; simpl.
  - destruct (String.eqb k k'); reflexivity.
  - destruct (String.eqb_spec k0 k) as [->|Hne]; simpl.
    + destruct (String.eqb k k'); reflexivity.
    + rewrite IH. destruct (String.eqb_spec k0 k'), (String.eqb_spec k k'); congruence.
Qed.

Lemma dict_set_nonempty {V} (d : list (string * V)) k v : dict_set d k v <> [].
Proof. destruct d as [|[k0 v0] d]; simpl; [discriminate|]. destruct (String.eqb k0 k); discriminate. Qed.

Definition load_step (m : list (string * string)) (d : string * string) : list (string * string) :=
  dict_set m (normalize_phone (fst d)) (snd d).

Lemma load_fold_lookup data m k :
  dict_get (fold_left load_step data m) k =
  match find (fun d => String.eqb (normalize_phone (fst d)) k) (rev data) with
  | Some d => Some (snd d)
  | None => dict_get m k
  end.
Proof.
  induction data as [|d data IH] using rev_ind; simpl; [reflexivity|].
  rewrite fold_left_app, rev_app_distr. simpl. unfold load_step at 1. rewrite dict_get_set.
  destruct (String.eqb (normalize_phone (fst d)) k); [reflexivity|]. exact IH.
Qed.

Lemma load_fold_nonempty data m : m <> [] \/ data <> [] -> fold_left load_step data m <> [].
Proof.
  revert m; induction data as [|d data IH]; intros m H; simpl.
  - destruct H; congruence.
  - apply IH. left. apply dict_set_nonempty.
Qed.

(** The sender lookup, case by case. *)
Lemma sender_lookup_eq cfg pn w :
  _get_sender_phone_number_id cfg pn w =
  match phone_map w with
  | [] =>
      match phone_numbers_api w with
      | None | Some [] =>
          (inl Exception_, mkWorld (phone_map w) (phone_numbers_api w)
                             (EvGetPhoneNumbers (get_waba cfg) :: trace w) (http_answer w))
      | Some data =>
          let m := fold_left load_step data (phone_map w) in
          (match dict_get m pn with Some id => inr id | None => inl KeyError end,
           mkWorld m (phone_numbers_api w) (EvGetPhoneNumbers (get_waba cfg) :: trace w)
             (http_answer w))
      end
  | _ => (match dict_get (phone_map w) pn with Some id => inr id | None => inl KeyError end, w)
  end.
Proof.
  unfold _get_sender_phone_number_id, _load_phone_numbers, mbind, emit, set_phone_map.
  destruct (phone_map w) as [|kv m] eqn:Em; cbv beta iota.
  - simpl. destruct (phone_numbers_api w) as [[|d ds]|]; simpl; try reflexivity.
    destruct (dict_get _ pn); reflexivity.
  - rewrite <- Em. destruct (dict_get (phone_map w) pn); reflexivity.
Qed.

Definition is_digit (c : ascii) : bool :=
  Nat.leb 48 (nat_of_ascii c) && Nat.leb (nat_of_ascii c) 57.

Lemma normalize_phone_digits s : forallb is_digit (list_ascii_of_string (normalize_phone s)) = true.
Proof.
  unfold normalize_phone. rewrite list_ascii_of_string_of_list_ascii.
  apply forallb_forall. intros c Hc. apply filter_In in Hc. apply Hc.
Qed.

Lemma forallb_not_existsb {A} (f : A -> bool) l :
  forallb f l = true -> existsb (fun c => negb (f c)) l = false.
Proof. induction l as [|x l IH]; simpl; [auto|]. intros H. apply andb_true_iff in H as [-> H]. auto. Qed.

Lemma find_none_norm (data : list (string * string)) pn :
  existsb (fun c => negb (is_digit c)) (list_ascii_of_string pn) = true ->
  find (fun d => String.eqb (normalize_phone (fst d)) pn) data = None.
Proof.
  intros Hpn. induction data as [|d data IH]; simpl; [reflexivity|].
  destruct (String.eqb_spec (normalize_phone (fst d)) pn) as [E|]; [|exact IH].
  pose proof (forallb_not_existsb _ _ (normalize_phone_digits (fst d))) as Hf.
  rewrite E, Hpn in Hf. discriminate.
Qed.

(** X1: with an empty cache and a non-empty directory listing, looking up
    a sender number that holds any character other than a digit fails with
    [KeyError]: the cache keys are normalised to digits only, the looked-up
    number is not. *)
Theorem sender_lookup_unnormalized cfg pn w data :
  phone_map w = [] -> phone_numbers_api w = Some data -> data <> [] ->
  existsb (fun c => negb (is_digit c)) (list_ascii_of_string pn) = true ->
  fst (_get_sender_phone_number_id cfg pn w) = inl KeyError.
Proof.
  intros Hm Ha Hd Hpn. rewrite sender_lookup_eq, Hm, Ha.
  destruct data as [|d ds]; [congruence|]. cbv zeta. rewrite <- Hm, load_fold_lookup, find_none_norm by exact Hpn.
  rewrite Hm. reflexivity.
Qed.

(** X2: when the directory call returns nothing or an empty list,
    [_load_phone_numbers] raises after the GET and leaves the cache as it was. *)
Theorem load_phone_numbers_fails cfg w :
  phone_numbers_api w = None \/ phone_numbers_api w = Some [] ->
  _load_phone_numbers cfg w =
    (inl Exception_, mkWorld (phone_map w) (phone_numbers_api w)
                       (EvGetPhoneNumbers (get_waba cfg) :: trace w) (http_answer w)).
Proof.
  intros H. unfold _load_phone_numbers, mbind, emit. simpl.
  destruct H as [H|H]; rewrite H; reflexivity.
Qed.

(** X3: when the directory call returns a non-empty list,
    [_load_phone_numbers] succeeds after one GET, and the cache then maps a
    key to the id of the last listed number whose digits form that key,
    falling back to the previous cache. *)
Theorem load_phone_numbers_lookup cfg w data :
  phone_numbers_api w = Some data -> data <> [] ->
  fst (_load_phone_numbers cfg w) = inr tt /\
  trace (snd (_load_phone_numbers cfg w)) = EvGetPhoneNumbers (get_waba cfg) :: trace w /\
  forall k, dict_get (phone_map (snd (_load_phone_numbers cfg w))) k =
    match find (fun d => String.eqb (normalize_phone (fst d)) k) (rev data) with
    | Some d => Some (snd d)
    | None => dict_get (phone_map w) k
    end.
Proof.
  intros Ha Hd. unfold _load_phone_numbers, mbind, emit, set_phone_map. simpl. rewrite Ha.
  destruct data as [|d ds]; [congruence|]. simpl.
  split; [reflexivity|]. split; [reflexivity|].
  intros k. apply (load_fold_lookup (d :: ds)).
Qed.


(** X5: [send_order_details_msg] either fails before posting, leaving the
    world the sender lookup left, or posts exactly one message, to the
    looked-up phone number id and addressed to the recipient, and then
    returns what the server's answer to that post gives. *)
Theorem send_order_details_effects cfg a w :
  let w1 := snd (_get_sender_phone_number_id cfg (sender_phone_number a) w) in
  let posted pid req w' :=
    fst (_get_sender_phone_number_id cfg (sender_phone_number a) w) = inr pid /\
    r_to req = recipient_phone_number a /\
    w' = mkWorld (phone_map w1) (phone_numbers_api w1) (EvPostMessage pid req :: trace w1)
           (http_answer w1) in
  match send_order_details_msg cfg a w with
  | (inl e, w') =>
      w' = w1 \/
      exists pid req, posted pid req w' /\ http_answer w1 (trace w1) (EvPostMessage pid req) = inl e
  | (inr _, w') =>
      exists pid req, posted pid req w' /\ http_answer w1 (trace w1) (EvPostMessage pid req) = inr tt
  end.
Proof.
  cbv zeta. unfold send_order_details_msg, mbind, lift, request.
  destruct (_get_sender_phone_number_id cfg (sender_phone_number a) w) as [[e|pid] w1];
    [left; reflexivity|].
  cbv beta iota. destruct (build_interactive cfg a) as [e|i]; [left; reflexivity|].
  cbn [fst snd].
  destruct (http_answer w1 (trace w1) (EvPostMessage pid (mkRequest (recipient_phone_number a) i)))
    as [e|[]] eqn:Eh.
  - right. exists pid, (mkRequest (recipient_phone_number a) i). auto.
  - exists pid, (mkRequest (recipient_phone_number a) i). auto.
Qed.

Lemma items_loop_items off t its p : items_loop off t its = inr p -> fst p = map item_to_json its.
Proof.
  revert t p; induction its as [|it rest IH]; intros t p H; simpl in H.
  - inversion H; reflexivity.
  - destruct (Z.eqb off (offset (effective_amount it))); [|discriminate]. simpl in H.
    destruct (items_loop off _ rest) as [e|q] eqn:E; [discriminate|]. simpl in H.
    inversion H; subst. simpl. f_equal. exact (IH _ _ E).
Qed.

Lemma items_loop_error off t its e : items_loop off t its = inl e -> e = ValueError.
Proof.
  revert t; induction its as [|it rest IH]; intros t H; simpl in H; [discriminate|].
  destruct (Z.eqb off (offset (effective_amount it))); simpl in H; [|congruence].
  destruct (items_loop off _ rest) eqn:E; simpl in H; [|discriminate].
  inversion H; subst. exact (IH _ E).
Qed.

Lemma items_loop_mismatch off t its :
  Exists (fun it => offset (effective_amount it) <> off) its -> items_loop off t its = inl ValueError.
Proof.
  intros Hx. destruct (items_loop off t its) as [e|p] eqn:E.
  - rewrite (items_loop_error _ _ _ _ E). reflexivity.
  - apply items_loop_spec in E. destruct E as [_ Hf].
    rewrite Forall_forall in Hf. apply Exists_exists in Hx. destruct Hx as (it & Hin & Hne).
    exfalso. exact (Hne (Hf it Hin)).
Qed.

Lemma build_interactive_total cfg a i :
  build_interactive cfg a = inr i ->
  exists first rest, items a = first :: rest /\ offset (amount first) = VALUE_OFFSET /\
    aj_offset (i_total_amount i) = VALUE_OFFSET /\ aj_value (i_total_amount i) mod VALUE_OFFSET = 0 /\
    i_reference_id i = reference_id a /\ o_items (i_order i) = map item_to_json (items a).
Proof.
  unfold build_interactive.
  destruct (header_to_json (msg_header a)) as [e|hd]; [discriminate|]. simpl.
  destruct (items a) as [|first rest] eqn:Ei; [discriminate|].
  destruct (items_loop _ 0 (first :: rest)) as [e|p] eqn:El; [discriminate|]. simpl.
  match goal with |- context [Amount_init ?v ?o] => destruct (Amount_init v o) as [e|ta] eqn:Ea end;
    [discriminate|].
  simpl. intros H; inversion H; subst; clear H.
  apply Amount_init_inr in Ea. destruct Ea as (-> & Ho & Hm).
  exists first, rest. simpl. repeat split; auto.
  exact (items_loop_items _ _ _ _ El).
Qed.

(** X6: after a successful [send_order_details_msg], the posted total and
    subtotal have offset 100, the total value is a multiple of 100, and every
    item's effective amount has offset 100. *)
Theorem send_success_scale cfg a w w' :
  send_order_details_msg cfg a w = (inr tt, w') ->
  exists req, last_post w' = Some req /\
    aj_offset (i_total_amount (r_interactive req)) = VALUE_OFFSET /\
    aj_value (i_total_amount (r_interactive req)) mod VALUE_OFFSET = 0 /\
    aj_offset (o_subtotal (i_order (r_interactive req))) = VALUE_OFFSET /\
    Forall (fun it => offset (effective_amount it) = VALUE_OFFSET) (items a).
Proof.
  intros H. destruct (send_success_inv _ _ _ _ H) as (i & Hb & Hp).
  destruct (build_interactive_total _ _ _ Hb) as (first & rest & Ei & Hf & Ho & Hm & _ & _).
  destruct (build_interactive_inv _ _ _ Hb) as (first' & rest' & p & Ei' & El & Hord & _).
  rewrite Ei in Ei'. injection Ei' as <- <-.
  destruct (items_loop_spec _ _ _ _ El) as [_ Hall].
  exists (mkRequest (recipient_phone_number a) i). split; [exact Hp|]. simpl.
  rewrite Hord. simpl. rewrite Hf in Hall |- *. auto.
Qed.

(** X7: a successful [send_order_details_msg] posts the items in the
    order given, and the reference id passed in. *)
Theorem send_items_in_order cfg a w w' :
  send_order_details_msg cfg a w = (inr tt, w') ->
  exists req, last_post w' = Some req /\
    o_items (i_order (r_interactive req)) = map item_to_json (items a) /\
    i_reference_id (r_interactive req) = reference_id a.
Proof.
  intros H. destruct (send_success_inv _ _ _ _ H) as (i & Hb & Hp).
  destruct (build_interactive_total _ _ _ Hb) as (first & rest & _ & _ & _ & _ & Hr & Hi).
  exists (mkRequest (recipient_phone_number a) i). auto.
Qed.

(** X8: once the sender lookup has succeeded and the header is valid,
    an item whose effective amount has another offset than the first item's
    amount makes [send_order_details_msg] fail with [ValueError], posting
    nothing. *)
Theorem send_mixed_offsets cfg a w pid hd first rest :
  fst (_get_sender_phone_number_id cfg (sender_phone_number a) w) = inr pid ->
  header_to_json (msg_header a) = inr hd ->
  items a = first :: rest ->
  Exists (fun it => offset (effective_amount it) <> offset (amount first)) (items a) ->
  send_order_details_msg cfg a w =
    (inl ValueError, snd (_get_sender_phone_number_id cfg (sender_phone_number a) w)).
Proof.
  intros Hl Hh Hi Hx.
  unfold send_order_details_msg, mbind, lift, emit.
  destruct (_get_sender_phone_number_id cfg (sender_phone_number a) w) as [[e|pid'] w1];
    simpl in Hl; [discriminate|]. cbv beta iota.
  unfold build_interactive. rewrite Hh. simpl. rewrite Hi. rewrite Hi in Hx.
  rewrite (items_loop_mismatch _ _ _ Hx). reflexivity.
Qed.

(** X9: [get_header] always yields a header that [send_order_details_msg]
    accepts: a text header when the text is non-empty, else an image header
    when the link is non-empty, else none. *)
Theorem get_header_valid header_text header_image_link :
  header_to_json (get_header header_text header_image_link) =
    inr (if str_truthy header_text
         then Some (HdText (match header_text with Some t => t | None => "" end))
         else if str_truthy header_image_link
         then Some (HdImage (match header_image_link with Some l => l | None => "" end))
         else None).
Proof.
  unfold get_header.
  destruct (str_truthy header_text) eqn:Ht, (str_truthy header_image_link) eqn:Hl;
    simpl; try rewrite Ht; try rewrite Hl; reflexivity.
Qed.

Definition is_alnum (c : ascii) : bool :=
  let n := nat_of_ascii c in
  (Nat.leb 48 n && Nat.leb n 57) || (Nat.leb 65 n && Nat.leb n 90) || (Nat.leb 97 n && Nat.leb n 122).

Lemma length_string_of_list_ascii l : String.length (string_of_list_ascii l) = List.length l.
Proof. induction l as [|c l IH]; simpl; auto. Qed.

Lemma ref_chars_alnum : forallb is_alnum (list_ascii_of_string ref_chars) = true.
Proof. reflexivity. Qed.

(** X10: [generate_reference_id] returns 32 ASCII letters and digits,
    whatever index the random choice picks within the alphabet. *)
Theorem generate_reference_id_shape (choice : nat -> nat) :
  (forall k, choice k < 62)%nat ->
  String.length (generate_reference_id choice) = 32%nat /\
  forallb is_alnum (list_ascii_of_string (generate_reference_id choice)) = true.
Proof.
  intros Hc. unfold generate_reference_id. split.
  - rewrite length_string_of_list_ascii, length_map, length_seq. reflexivity.
  - rewrite list_ascii_of_string_of_list_ascii. apply forallb_forall.
    intros c Hin. apply in_map_iff in Hin. destruct Hin as (k & <- & _).
    pose proof ref_chars_alnum as Ha. rewrite forallb_forall in Ha. apply Ha.
    apply nth_In. apply Hc.
Qed.

Definition example_item_val (includes_sale_amount : bool) (i : Z) : Item :=
  mkItem ("Product " ++ z_to_string (i + 1))%string (mkAmount (1000 * (i + 1)) VALUE_OFFSET) (i + 1)
    (if includes_sale_amount then Some (mkAmount (1000 * (i + 1) - 200) VALUE_OFFSET) else None)
    None None None None None.

Definition example_items (number : Z) (includes_sale_amount : bool) : list Item :=
  map (example_item_val includes_sale_amount) (map Z.of_nat (seq 0 (Z.to_nat number))).

Lemma mod0_mul100 k : (k * 100) mod VALUE_OFFSET = 0.
Proof. apply Z.mod_mul. unfold VALUE_OFFSET. lia. Qed.

Lemma example_amounts_mod i :
  (1000 * (i + 1)) mod VALUE_OFFSET = 0 /\ (1000 * (i + 1) - 200) mod VALUE_OFFSET = 0.
Proof.
  split.
  - replace (1000 * (i + 1)) with ((10 * (i + 1)) * 100) by ring. apply mod0_mul100.
  - replace (1000 * (i + 1) - 200) with ((10 * i + 8) * 100) by ring. apply mod0_mul100.
Qed.

Lemma example_item_ok flag i : example_item flag i = inr (example_item_val flag i).
Proof.
  destruct (example_amounts_mod i) as [H1 H2].
  unfold example_item, get_example_sale_amount. rewrite (Amount_init_ok _ H1).
  unfold rbind. cbv beta iota.
  destruct flag; [rewrite (Amount_init_ok _ H2)|]; reflexivity.
Qed.

Lemma res_map_ok {A B} (f : A -> res B) (g : A -> B) l :
  (forall x, f x = inr (g x)) -> res_map f l = inr (map g l).
Proof. intros H. induction l as [|x l IH]; simpl; [reflexivity|]. rewrite H, IH. reflexivity. Qed.

Lemma get_example_items_ok n flag : get_example_items n flag = inr (example_items n flag).
Proof. apply res_map_ok, example_item_ok. Qed.

Lemma sum_effective_app l1 l2 : sum_effective (l1 ++ l2) = sum_effective l1 + sum_effective l2.
Proof. induction l1 as [|it l1 IH]; simpl; [reflexivity|]. rewrite IH. ring. Qed.

Lemma sum_example_items (m : nat) flag :
  6 * sum_effective (map (example_item_val flag) (map Z.of_nat (seq 0 m))) =
  1000 * Z.of_nat m * (Z.of_nat m + 1) * (2 * Z.of_nat m + 1)
  - (if flag then 600 * Z.of_nat m * (Z.of_nat m + 1) else 0).
Proof.
  induction m as [|m IH]; [destruct flag; reflexivity|].
  rewrite seq_S, !map_app, sum_effective_app, Z.mul_add_distr_l, IH, Nat2Z.inj_succ.
  unfold Z.succ.
  change (sum_effective (map (example_item_val flag) (map Z.of_nat [(0 + m)%nat]))) with
    (value (effective_amount (example_item_val flag (Z.of_nat m))) *
     quantity (example_item_val flag (Z.of_nat m)) + 0).
  destruct flag; unfold example_item_val, effective_amount; cbn [value quantity sale_amount amount]; ring.
Qed.

Lemma length_example_items n flag : List.length (example_items n flag) = Z.to_nat n.
Proof. unfold example_items. rewrite !length_map, length_seq. reflexivity. Qed.

Lemma example_items_built n flag :
  Forall (fun it => built_amount (amount it) /\ opt_built (sale_amount it)) (example_items n flag).
Proof.
  unfold example_items. apply Forall_forall. intros it Hin.
  apply in_map_iff in Hin. destruct Hin as (i & <- & _).
  destruct (example_amounts_mod i) as [H1 H2].
  unfold example_item_val. cbn [amount sale_amount]. split.
  - exists (1000 * (i + 1)), VALUE_OFFSET. apply Amount_init_ok, H1.
  - destruct flag; cbn [opt_built]; [|exact I].
    exists (1000 * (i + 1) - 200), VALUE_OFFSET. apply Amount_init_ok, H2.
Qed.

Lemma build_interactive_ok cfg a :
  Forall (fun it => built_amount (amount it) /\ opt_built (sale_amount it)) (items a) ->
  opt_built (tax_amount a) -> opt_built (shipping_amount a) -> opt_built (discount_amount a) ->
  items a <> [] ->
  (exists hd, header_to_json (msg_header a) = inr hd) ->
  exists i, build_interactive cfg a = inr i.
Proof.
  intros Hits Ht Hs Hd Hne [hd Hh].
  assert (Heff : Forall (fun it => offset (effective_amount it) = VALUE_OFFSET /\
                                   value (effective_amount it) mod VALUE_OFFSET = 0) (items a)).
  { eapply Forall_impl; [|exact Hits]. intros it Hit.
    apply built_amount_inv, effective_built, Hit. }
  unfold build_interactive. rewrite Hh. simpl.
  destruct (items a) as [|first rest] eqn:Ei; [congruence|].
  assert (Hf : offset (amount first) = VALUE_OFFSET).
  { inversion Hits as [|? ? [H1 _] _]; subst. apply built_amount_inv in H1. tauto. }
  rewrite Hf.
  destruct (items_loop_ok VALUE_OFFSET 0 (first :: rest)) as [l Hl].
  { eapply Forall_impl; [|exact Heff]. simpl. tauto. }
  rewrite Hl. simpl.
  assert (Hsum : sum_effective (first :: rest) mod VALUE_OFFSET = 0).
  { apply sum_effective_mod. eapply Forall_impl; [|exact Heff]. simpl. tauto. }
  apply opt_built_mod in Ht. apply opt_built_mod in Hs. apply opt_built_mod in Hd.
  match goal with |- context [Amount_init ?v VALUE_OFFSET] =>
    assert (Hv : v mod VALUE_OFFSET = 0) end.
  { destruct (tax_amount a), (shipping_amount a), (discount_amount a); simpl in *;
      repeat first [assumption | apply mod0_sub | apply mod0_add]. }
  rewrite (Amount_init_ok _ Hv). simpl. eexists. reflexivity.
Qed.

Lemma sender_lookup_again cfg pn w pid t h :
  fst (_get_sender_phone_number_id cfg pn w) = inr pid ->
  let w1 := snd (_get_sender_phone_number_id cfg pn w) in
  _get_sender_phone_number_id cfg pn (mkWorld (phone_map w1) (phone_numbers_api w1) t h) =
    (inr pid, mkWorld (phone_map w1) (phone_numbers_api w1) t h).
Proof.
  intros H. cbv zeta. rewrite (sender_lookup_eq cfg pn w) in *.
  destruct (phone_map w) as [|kv m] eqn:Em.
  - destruct (phone_numbers_api w) as [[|d ds]|] eqn:Ea; simpl in H |- *; try discriminate.
    rewrite sender_lookup_eq. simpl.
    change (fold_left load_step ds (load_step [] d)) with (fold_left load_step (d :: ds) []) in *.
    destruct (fold_left load_step (d :: ds) []) as [|kv' m'] eqn:E.
    + exfalso. apply (load_fold_nonempty (d :: ds) []); [right; discriminate | exact E].
    + destruct (dict_get (kv' :: m') pn); congruence.
  - cbn [fst snd] in H |- *. rewrite sender_lookup_eq. cbn [phone_map]. rewrite Em in *.
    destruct (dict_get (kv :: m) pn); congruence.
Qed.

Lemma sender_lookup_trace cfg pn w :
  trace (snd (_get_sender_phone_number_id cfg pn w)) =
  match phone_map w with [] => [EvGetPhoneNumbers (get_waba cfg)] | _ => [] end ++ trace w.
Proof.
  rewrite sender_lookup_eq. destruct (phone_map w); [|reflexivity].
  destruct (phone_numbers_api w) as [[|d ds]|]; reflexivity.
Qed.

Lemma sender_lookup_http cfg pn w :
  http_answer (snd (_get_sender_phone_number_id cfg pn w)) = http_answer w.
Proof.
  rewrite sender_lookup_eq. destruct (phone_map w); [|reflexivity].
  destruct (phone_numbers_api w) as [[|d ds]|]; reflexivity.
Qed.

Lemma send_ok cfg a w pid w1 i :
  build_interactive cfg a = inr i ->
  _get_sender_phone_number_id cfg (sender_phone_number a) w = (inr pid, w1) ->
  send_order_details_msg cfg a w =
    (http_answer w1 (trace w1) (EvPostMessage pid (mkRequest (recipient_phone_number a) i)),
     mkWorld (phone_map w1) (phone_numbers_api w1)
       (EvPostMessage pid (mkRequest (recipient_phone_number a) i) :: trace w1) (http_answer w1)).
Proof.
  intros Hb Hl. unfold send_order_details_msg, mbind, lift, request. rewrite Hl. cbv beta iota.
  rewrite Hb. reflexivity.
Qed.

Lemma main_success cfg sender recipient choice args aw g b n pid :
  args_goods_type args = Some g -> args_msg_body args = Some b -> args_item_number args = Some n ->
  0 < n -> (forall t ev, app_http_answer aw t ev = inr tt) ->
  fst (_get_sender_phone_number_id cfg sender (world_of aw)) = inr pid ->
  let w1 := snd (_get_sender_phone_number_id cfg sender (world_of aw)) in
  let ref := generate_reference_id choice in
  let oa := main_order_args args g sender recipient ref b
              (example_items n (args_include_sale_amount args)) (Some (mkAmount 100 VALUE_OFFSET))
              (if args_include_shipping_value args then Some (mkAmount 100 VALUE_OFFSET) else None)
              (if args_include_discount_value args then Some (mkAmount 200 VALUE_OFFSET) else None) in
  exists i, build_interactive cfg oa = inr i /\
    main cfg sender recipient choice args aw =
      (inr tt, mkAppWorld (phone_map w1) (phone_numbers_api w1)
         ([Api (EvGetPaymentStatus pid (get_payment_configuration cfg) (JString ref));
           EvPostStatusMessage pid
             (mkStatusRequest recipient
                (mkStatusInteractive "order_status" "Order Status Update" "review_order" ref
                   "processing" None));
           Api (EvPostMessage pid (mkRequest recipient i))]
          ++ map Api (trace w1) ++ app_trace aw) (app_http_answer aw)).
Proof.
  intros Hg Hb Hn Hpos Hsrv Hl. cbv zeta.
  destruct (build_interactive_ok cfg
     (main_order_args args g sender recipient (generate_reference_id choice) b
        (example_items n (args_include_sale_amount args)) (Some (mkAmount 100 VALUE_OFFSET))
        (if args_include_shipping_value args then Some (mkAmount 100 VALUE_OFFSET) else None)
        (if args_include_discount_value args then Some (mkAmount 200 VALUE_OFFSET) else None)))
    as [i Hi].
  { apply example_items_built. }
  { exists 100, VALUE_OFFSET. reflexivity. }
  { destruct (args_include_shipping_value args); [exists 100, VALUE_OFFSET; reflexivity | exact I]. }
  { destruct (args_include_discount_value args); [exists 200, VALUE_OFFSET; reflexivity | exact I]. }
  { simpl. unfold example_items. destruct (Z.to_nat n) eqn:E; [lia|]. simpl. discriminate. }
  { simpl. rewrite get_header_valid. eexists. reflexivity. }
  exists i. split; [exact Hi|].
  pose proof (sender_lookup_again cfg sender (world_of aw) pid) as Hagain.
  pose proof (sender_lookup_http cfg sender (world_of aw)) as Hh.
  destruct (_get_sender_phone_number_id cfg sender (world_of aw)) as [r w1] eqn:Elk.
  assert (Hw1 : forall t ev, http_answer w1 t ev = inr tt).
  { intros t ev. simpl in Hh. rewrite Hh. apply Hsrv. }
  simpl in Hl, Hagain |- *. subst r.
  unfold main, ambind, alift, first_arg. rewrite Hg, Hb, Hn. cbv beta iota zeta.
  rewrite get_example_items_ok. cbv beta iota.
  assert (E100 : Amount_init 100 VALUE_OFFSET = inr (mkAmount 100 VALUE_OFFSET)) by reflexivity.
  assert (E200 : Amount_init 200 VALUE_OFFSET = inr (mkAmount 200 VALUE_OFFSET)) by reflexivity.
  unfold opt_amount, get_example_tax_amount, get_example_shipping_amount, get_example_discount_amount.
  destruct (args_include_shipping_value args), (args_include_discount_value args);
    rewrite ?E100, ?E200; unfold rbind; cbv beta iota;
    unfold embed at 1; rewrite (send_ok _ _ _ _ _ _ Hi Elk), Hw1; cbv beta iota;
    unfold send_order_status_msg, ambind, embed, post_status, world_of; simpl;
    rewrite Hagain by reflexivity; cbv beta iota;
    cbn [app_phone_map app_phone_numbers_api app_trace app_http_answer map List.app];
    rewrite Hsrv; cbv beta iota;
    unfold get_payment_status, mbind, request; rewrite Hagain by reflexivity;
    cbv beta iota; cbn [http_answer]; rewrite Hsrv; reflexivity.
Qed.

(** X11: when the three required arguments are given, the item number is
    positive and the sender lookup succeeds, [main] issues, after the
    directory fetch if the cache was empty, exactly the order-details post,
    the "processing" status message and the payment-status query, all to
    the looked-up id and with the same reference id. *)
Theorem main_request_sequence cfg sender recipient choice args aw g b n pid :
  args_goods_type args = Some g -> args_msg_body args = Some b -> args_item_number args = Some n ->
  0 < n -> (forall t ev, app_http_answer aw t ev = inr tt) ->
  fst (_get_sender_phone_number_id cfg sender (world_of aw)) = inr pid ->
  let ref := generate_reference_id choice in
  exists req fetch aw',
    main cfg sender recipient choice args aw = (inr tt, aw') /\
    (fetch = [] \/ fetch = [Api (EvGetPhoneNumbers (get_waba cfg))]) /\
    app_trace aw' =
      [Api (EvGetPaymentStatus pid (get_payment_configuration cfg) (JString ref));
       EvPostStatusMessage pid
         (mkStatusRequest recipient
            (mkStatusInteractive "order_status" "Order Status Update" "review_order" ref
               "processing" None));
       Api (EvPostMessage pid req)] ++ fetch ++ app_trace aw /\
    r_to req = recipient /\ i_reference_id (r_interactive req) = ref.
Proof.
  intros Hg Hb Hn Hpos Hsrv Hl. cbv zeta.
  destruct (main_success cfg sender recipient choice args aw g b n pid Hg Hb Hn Hpos Hsrv Hl)
    as (i & Hi & Hm).
  destruct (build_interactive_total _ _ _ Hi) as (_ & _ & _ & _ & _ & _ & Href & _).
  exists (mkRequest recipient i), (map Api (trace (snd (_get_sender_phone_number_id cfg sender (world_of aw))))).
  eexists. split; [exact Hm|].
  split; [|split; [reflexivity|split; [reflexivity|exact Href]]].
  rewrite sender_lookup_trace. simpl. destruct (app_phone_map aw); [right|left]; reflexivity.
Qed.

(** X12: in the order [main] posts, there are [item_number] items, six
    times the subtotal is 1000 n(n+1)(2n+1) less 600 n(n+1) with sale
    amounts, and the total is the subtotal plus 100 of tax, plus 100 of
    shipping and less 200 of discount when these are requested. *)
Theorem main_order_totals cfg sender recipient choice args aw g b n pid :
  args_goods_type args = Some g -> args_msg_body args = Some b -> args_item_number args = Some n ->
  0 < n -> (forall t ev, app_http_answer aw t ev = inr tt) ->
  fst (_get_sender_phone_number_id cfg sender (world_of aw)) = inr pid ->
  exists req aw',
    main cfg sender recipient choice args aw = (inr tt, aw') /\
    In (Api (EvPostMessage pid req)) (app_trace aw') /\
    List.length (o_items (i_order (r_interactive req))) = Z.to_nat n /\
    6 * aj_value (o_subtotal (i_order (r_interactive req))) =
      1000 * n * (n + 1) * (2 * n + 1)
      - (if args_include_sale_amount args then 600 * n * (n + 1) else 0) /\
    aj_value (i_total_amount (r_interactive req)) =
      aj_value (o_subtotal (i_order (r_interactive req))) + 100
      + (if args_include_shipping_value args then 100 else 0)
      - (if args_include_discount_value args then 200 else 0).
Proof.
  intros Hg Hb Hn Hpos Hsrv Hl.
  destruct (main_success cfg sender recipient choice args aw g b n pid Hg Hb Hn Hpos Hsrv Hl)
    as (i & Hi & Hm).
  destruct (build_interactive_total _ _ _ Hi) as (_ & _ & _ & _ & _ & _ & _ & Hits).
  destruct (build_interactive_inv _ _ _ Hi) as (first & rest & p & _ & El & Ho & Ht).
  destruct (items_loop_spec _ _ _ _ El) as [Hs _].
  exists (mkRequest recipient i). eexists. split; [exact Hm|].
  split; [apply in_or_app; left; right; right; left; reflexivity|].
  cbn [r_interactive].
  rewrite Hits, length_map. cbn [items main_order_args]. rewrite length_example_items.
  split; [reflexivity|].
  rewrite Ho, Ht. cbn [o_subtotal aj_value i_total_amount tax_amount shipping_amount
                       discount_amount main_order_args items] in *.
  rewrite Hs.
  pose proof (sum_example_items (Z.to_nat n) (args_include_sale_amount args)) as Hsum.
  rewrite Z2Nat.id in Hsum by lia.
  split; [unfold example_items; rewrite <- Hsum; ring|].
  destruct (args_include_shipping_value args), (args_include_discount_value args);
    cbn [opt_value value]; ring.
Qed.

(** X13: when [--goods_type], [--msg_body] or [--item_number] is missing,
    [main] raises [TypeError] before any call. *)
Theorem main_missing_argument cfg sender recipient choice args aw :
  args_goods_type args = None \/ args_msg_body args = None \/ args_item_number args = None ->
  main cfg sender recipient choice args aw = (inl TypeError, aw).
Proof.
  intros H. unfold main, ambind, alift, first_arg. cbv zeta.
  destruct (args_goods_type args), (args_msg_body args), (args_item_number args);
    try reflexivity; intuition discriminate.
Qed.

(** X14: with an item number of zero or less, [main] fails after the
    sender lookup without posting anything; the error is [IndexError]
    whenever the lookup itself succeeded. *)
Theorem main_no_items cfg sender recipient choice args aw g b n :
  args_goods_type args = Some g -> args_msg_body args = Some b -> args_item_number args = Some n ->
  n <= 0 ->
  let w1 := snd (_get_sender_phone_number_id cfg sender (world_of aw)) in
  exists e,
    main cfg sender recipient choice args aw =
      (inl e, mkAppWorld (phone_map w1) (phone_numbers_api w1) (map Api (trace w1) ++ app_trace aw)
                (app_http_answer aw)) /\
    (forall pid, fst (_get_sender_phone_number_id cfg sender (world_of aw)) = inr pid -> e = IndexError).
Proof.
  intros Hg Hb Hn Hle. cbv zeta.
  assert (E100 : Amount_init 100 VALUE_OFFSET = inr (mkAmount 100 VALUE_OFFSET)) by reflexivity.
  assert (E200 : Amount_init 200 VALUE_OFFSET = inr (mkAmount 200 VALUE_OFFSET)) by reflexivity.
  assert (Hnil : example_items n (args_include_sale_amount args) = []).
  { unfold example_items. replace (Z.to_nat n) with 0%nat by lia. reflexivity. }
  unfold main, ambind, alift, first_arg. rewrite Hg, Hb, Hn. cbv beta iota zeta.
  rewrite get_example_items_ok, Hnil. cbv beta iota.
  unfold opt_amount, get_example_tax_amount, get_example_shipping_amount, get_example_discount_amount.
  destruct (args_include_shipping_value args), (args_include_discount_value args);
    rewrite ?E100, ?E200; unfold rbind; cbv beta iota; unfold embed at 1;
    unfold send_order_details_msg at 1, mbind at 1, lift, emit; cbn [sender_phone_number main_order_args];
    destruct (_get_sender_phone_number_id cfg sender (world_of aw)) as [[e|pid] w1]; cbv beta iota;
    (try (exists e; split; [reflexivity | discriminate]));
    unfold build_interactive; cbn [msg_header items main_order_args]; rewrite get_header_valid;
    cbn [rbind];
    (exists IndexError; split; reflexivity).
Qed.

(** ** The webhook handler never reaches its status-update branch *)

Lemma mbind_lift_eq {A B} (r : res A) (k : A -> M B) w :
  mbind (lift r) k w = match r with inl e => (inl e, w) | inr x => k x w end.
Proof. destruct r; reflexivity. Qed.

Ltac handler_step :=
  match goal with
  | |- context [mbind (lift ?r) ?k ?w] =>
      rewrite (mbind_lift_eq r k w); destruct r eqn:?; cbv beta iota
  | |- context [(if ?b then _ else _) ?w] => destruct b eqn:?; cbv beta iota
  end.

(** X15: for every payload, whatever [json.loads] makes of it,
    [handle_webhook_call] leaves the world unchanged (no directory fetch, no
    HTTP call) and never reports a payment status update: the guard needs
    [status] to be one of four strings, and [status.get("payment")] on a
    string raises first. *)
Theorem handle_webhook_call_no_effect json_loads cfg headers payload w :
  exists r, handle_webhook_call json_loads cfg headers payload w = (r, w) /\
            forall a b c d, r <> inr (PaymentStatusUpdate a b c d).
Proof.
  unfold handle_webhook_call.
  repeat handler_step.
  all: try (exists (inl e); split; [reflexivity | discriminate]).
  all: try (unfold mret; eexists; split; [reflexivity | intros; discriminate]).
  - unfold lift; eexists; split; [reflexivity |].
    intros ? ? ? ?; unfold rbind.
    repeat match goal with |- context [match ?x with inl _ => _ | inr _ => _ end] =>
      destruct x end; discriminate.
  - exfalso.
    match goal with
    | H1 : py_get ?s "payment" = inr _,
      H2 : (if _ then _ else inr false) = inr true |- _ =>
        destruct s; try discriminate H1;
        unfold in_statuses in H2; cbn [existsb is_str] in H2;
        rewrite !orb_false_r, andb_false_r in H2; discriminate H2
    end.
Qed.

(** ** Witnesses for the rest of the program *)

Definition aw0 : AppWorld := mkAppWorld [] (Some [("+91 99999-00000", "pnid-0")]) [] server_ok.

Definition choice0 (k : nat) : nat := Nat.modulo (k * 7) 62.

Definition main_args_with (goods : option string) (number : option Z) : MainArgs :=
  mkMainArgs goods (Some "Your order") number None true true None true None None None
    (Some "Hi") None None None None.

Definition item_B1 : Item := mkItem "B" (mkAmount 500 1) 1 None None None None None None.

Definition args_mixed : OrderDetailsArgs := args_of [item_A; item_B1] None None None.

Definition world_dup : World :=
  mkWorld [] (Some [("+91 99999-00000", "pnid-0"); ("919999900000", "pnid-1")]) [] server_ok.

Lemma sender_lookup_unnormalized_witness :
  fst (_get_sender_phone_number_id cfg0 "+91 99999-00000" world0) = inl KeyError.
Proof.
  apply (sender_lookup_unnormalized cfg0 "+91 99999-00000" world0 [("+91 99999-00000", "pnid-0")]);
    [reflexivity | reflexivity | discriminate | reflexivity].
Defined.

Lemma load_phone_numbers_fails_witness :
  _load_phone_numbers cfg0 (mkWorld [] (Some []) [] server_ok) =
    (inl Exception_, mkWorld [] (Some []) [EvGetPhoneNumbers "102030"] server_ok).
Proof. apply (load_phone_numbers_fails cfg0 (mkWorld [] (Some []) [] server_ok)). right; reflexivity. Defined.

Lemma load_phone_numbers_lookup_witness :
  dict_get (phone_map (snd (_load_phone_numbers cfg0 world_dup))) "919999900000" = Some "pnid-1".
Proof.
  destruct (load_phone_numbers_lookup cfg0 world_dup
              [("+91 99999-00000", "pnid-0"); ("919999900000", "pnid-1")]) as (_ & _ & H);
    [reflexivity | discriminate |].
  rewrite H. reflexivity.
Defined.


Lemma send_success_scale_witness :
  exists req, last_post (snd (send_order_details_msg cfg0 args_built world0)) = Some req /\
    aj_offset (i_total_amount (r_interactive req)) = VALUE_OFFSET /\
    aj_value (i_total_amount (r_interactive req)) mod VALUE_OFFSET = 0 /\
    aj_offset (o_subtotal (i_order (r_interactive req))) = VALUE_OFFSET /\
    Forall (fun it => offset (effective_amount it) = VALUE_OFFSET) (items args_built).
Proof.
  apply (send_success_scale cfg0 args_built world0 (snd (send_order_details_msg cfg0 args_built world0))).
  vm_compute. reflexivity.
Defined.

Lemma send_items_in_order_witness :
  exists req, last_post (snd (send_order_details_msg cfg0 args_built world0)) = Some req /\
    o_items (i_order (r_interactive req)) = map item_to_json (items args_built) /\
    i_reference_id (r_interactive req) = reference_id args_built.
Proof.
  apply (send_items_in_order cfg0 args_built world0 (snd (send_order_details_msg cfg0 args_built world0))).
  vm_compute. reflexivity.
Defined.

Lemma send_mixed_offsets_witness :
  send_order_details_msg cfg0 args_mixed world0 =
    (inl ValueError, snd (_get_sender_phone_number_id cfg0 (sender_phone_number args_mixed) world0)).
Proof.
  apply (send_mixed_offsets cfg0 args_mixed world0 "pnid-0" None item_A [item_B1]);
    [reflexivity | reflexivity | reflexivity |].
  apply Exists_cons_tl, Exists_cons_hd. simpl. discriminate.
Defined.

Lemma generate_reference_id_shape_witness :
  String.length (generate_reference_id choice0) = 32%nat /\
  forallb is_alnum (list_ascii_of_string (generate_reference_id choice0)) = true.
Proof.
  apply (generate_reference_id_shape choice0).
  intros k. unfold choice0. apply Nat.mod_upper_bound. discriminate.
Defined.

Lemma main_request_sequence_witness :
  let ref := generate_reference_id choice0 in
  exists req fetch aw',
    main cfg0 "919999900000" "918888800000" choice0 (main_args_with (Some "digital-goods") (Some 2)) aw0
      = (inr tt, aw') /\
    (fetch = [] \/ fetch = [Api (EvGetPhoneNumbers (get_waba cfg0))]) /\
    app_trace aw' =
      [Api (EvGetPaymentStatus "pnid-0" (get_payment_configuration cfg0) (JString ref));
       EvPostStatusMessage "pnid-0"
         (mkStatusRequest "918888800000"
            (mkStatusInteractive "order_status" "Order Status Update" "review_order" ref
               "processing" None));
       Api (EvPostMessage "pnid-0" req)] ++ fetch ++ app_trace aw0 /\
    r_to req = "918888800000" /\ i_reference_id (r_interactive req) = ref.
Proof.
  apply (main_request_sequence cfg0 "919999900000" "918888800000" choice0
           (main_args_with (Some "digital-goods") (Some 2)) aw0 "digital-goods" "Your order" 2 "pnid-0");
    reflexivity.
Defined.

Lemma main_order_totals_witness :
  exists req aw',
    main cfg0 "919999900000" "918888800000" choice0 (main_args_with (Some "digital-goods") (Some 2)) aw0
      = (inr tt, aw') /\
    In (Api (EvPostMessage "pnid-0" req)) (app_trace aw') /\
    List.length (o_items (i_order (r_interactive req))) = Z.to_nat 2 /\
    6 * aj_value (o_subtotal (i_order (r_interactive req))) =
      1000 * 2 * (2 + 1) * (2 * 2 + 1) - (if true then 600 * 2 * (2 + 1) else 0) /\
    aj_value (i_total_amount (r_interactive req)) =
      aj_value (o_subtotal (i_order (r_interactive req))) + 100
      + (if true then 100 else 0) - (if true then 200 else 0).
Proof.
  apply (main_order_totals cfg0 "919999900000" "918888800000" choice0
           (main_args_with (Some "digital-goods") (Some 2)) aw0 "digital-goods" "Your order" 2 "pnid-0");
    reflexivity.
Defined.

Lemma main_missing_argument_witness :
  main cfg0 "919999900000" "918888800000" choice0 (main_args_with None (Some 2)) aw0 = (inl TypeError, aw0).
Proof.
  apply (main_missing_argument cfg0 "919999900000" "918888800000" choice0 (main_args_with None (Some 2)) aw0).
  left. reflexivity.
Defined.

Lemma main_no_items_witness :
  let w1 := snd (_get_sender_phone_number_id cfg0 "919999900000" (world_of aw0)) in
  exists e,
    main cfg0 "919999900000" "918888800000" choice0 (main_args_with (Some "digital-goods") (Some 0)) aw0 =
      (inl e, mkAppWorld (phone_map w1) (phone_numbers_api w1) (map Api (trace w1) ++ app_trace aw0)
                (app_http_answer aw0)) /\
    (forall pid, fst (_get_sender_phone_number_id cfg0 "919999900000" (world_of aw0)) = inr pid ->
                 e = IndexError).
Proof.
  apply (main_no_items cfg0 "919999900000" "918888800000" choice0
           (main_args_with (Some "digital-goods") (Some 0)) aw0 "digital-goods" "Your order" 0);
    [reflexivity | reflexivity | reflexivity | lia].
Defined.
